(** * RetroTrivia front end: a shallow embedding of [App.js] and [api/client.js]

    The development follows the two source files of the trivia front end:

    - [src/api/client.js]: [toErrorMessage], [parseJsonSafe] and the error
      branch of [apiRequest];
    - [src/App.js]: the mock data provider ([MOCK_QUESTIONS], [clamp],
      [mockStart], [mockGetQuestion], [mockSubmitAnswer]), the dispatcher
      [tryBackendOrMock], the gameplay handlers ([handleStartGame],
      [handleSelectAnswer], [handleNext], the inline restart handler) and the
      click handler of [AdminCreateForm] with [parseChoices].

    Modelling decisions, all written out where they are used:

    - the counters of the game state (score, question number, total) are
      integers of [Z]; a number inside a JavaScript value or typed into
      the index input is a finite number, a rational of [Q]; how a number
      prints is the engine's business, a parameter; strings are [string]
      (sequences of 8-bit characters);
    - a React state variable read inside a handler is the value of the render
      the handler was created in, so a handler is a function of that state
      which emits the list of setter calls it performs, in order; the next
      state is obtained by replaying the list;
    - a call of the real API is an input of the model: the reply the backend
      gave (a value, or a thrown error with its [status] and [message]). *)

From Stdlib Require Import ZArith QArith String Ascii List Bool Lia
  DecimalString.
Import ListNotations.

Open Scope string_scope.
Open Scope Z_scope.

(* ================================================================== *)
(** ** JavaScript values and string primitives *)
(* ================================================================== *)

Module Js.

Set Warnings "-register-all".

(** Values as [JSON.parse] builds them (plus [undefined], which property
    access produces). A number is a finite one, written as a rational:
    every finite double is a rational, and the integer [n] is
    [inject_Z n]. An object is the list of its own properties, each key
    once. *)
Inductive value : Type :=
| Undefined
| Null
| Bool (b : bool)
| Num (n : Q)
| Str (s : string)
| Arr (items : list value)
| Obj (props : list (string * value)).

(** [!!v] *)
Definition truthy (v : value) : bool :=
  match v with
  | Undefined | Null => false
  | Bool b => b
  | Num n => negb (Qeq_bool n 0)
  | Str s => negb (s =? "")%string
  | Arr _ | Obj _ => true
  end.

Fixpoint lookup (key : string) (props : list (string * value)) : value :=
  match props with
  | [] => Undefined
  | (k, v) :: rest => if (k =? key)%string then v else lookup key rest
  end.

(** [v?.key] for a key that is not a built-in of strings or arrays
    ([detail], [msg]): only an object has it. *)
Definition prop (v : value) (key : string) : value :=
  match v with
  | Obj props => lookup key props
  | _ => Undefined
  end.

(** Does the object have an own property [key]? *)
Fixpoint hasOwn (key : string) (props : list (string * value)) : bool :=
  match props with
  | [] => false
  | (k, _) :: rest => (k =? key)%string || hasOwn key rest
  end.

(** All the results, or none when one is missing. *)
Fixpoint sequence {A : Type} (l : list (option A)) : option (list A) :=
  match l with
  | [] => Some []
  | x :: l' =>
      match x, sequence l' with
      | Some a, Some r => Some (a :: r)
      | _, _ => None
      end
  end.

Section Printing.

(** [Number.prototype.toString], a built-in: the text JavaScript prints
    for a number (the decimal digits of an integer below 10^21, exponent
    notation from there on, the shortest digits that read back for a
    fraction). *)
Variable Number_toString : Q -> string.

(** [String(v)], as template literals, [Array.prototype.join] and
    [encodeURIComponent] apply it; [None] when the conversion throws a
    [TypeError]. An object without an own [toString] inherits the one
    that prints [[object Object]]. An own [toString] of a parsed body is
    never a function, so the conversion goes on to [valueOf], which, own
    or inherited, gives no primitive: the conversion throws. An array
    prints its elements separated by commas, [null] and [undefined] as
    the empty string. *)
Fixpoint toString (v : value) : option string :=
  match v with
  | Undefined => Some "undefined"
  | Null => Some "null"
  | Bool true => Some "true"
  | Bool false => Some "false"
  | Num n => Some (Number_toString n)
  | Str s => Some s
  | Arr items =>
      option_map (String.concat ",")
        ((fix each (l : list value) : option (list string) :=
            match l with
            | [] => Some []
            | x :: l' =>
                match
                  match x with
                  | Undefined | Null => Some ""
                  | _ => toString x
                  end, each l'
                with
                | Some s, Some r => Some (s :: r)
                | _, _ => None
                end
            end) items)
  | Obj props =>
      if hasOwn "toString" props then None else Some "[object Object]"
  end.

(** The element text [join] uses. *)
Definition joinText (v : value) : option string :=
  match v with
  | Undefined | Null => Some ""
  | _ => toString v
  end.

(** [items.join(sep)]; [None] when an element cannot be converted. *)
Definition join (sep : string) (items : list value) : option string :=
  option_map (String.concat sep) (sequence (map joinText items)).

End Printing.

(** [a < b] and [a >= b] on numbers. *)
Definition lt (a b : Q) : bool := negb (Qle_bool b a).

Definition ge (a b : Q) : bool := Qle_bool b a.

(** [a || b] on strings where [a] may be missing: the empty string and
    [undefined] are both falsy. *)
Definition orStr (a : option string) (b : string) : string :=
  match a with
  | Some s => if (s =? "")%string then b else s
  | None => b
  end.

(** [a || b] where [a] is an array or missing: every array is truthy. *)
Definition orArr {A : Type} (a : option (list A)) (b : list A) : list A :=
  match a with
  | Some l => l
  | None => b
  end.

(** [a ?? b]: [None] stands for a property that is absent, [undefined] or
    [null]. *)
Definition nullish {A : Type} (a : option A) (b : A) : A :=
  match a with
  | Some x => x
  | None => b
  end.

(** [a ?? b] where [b] may be missing too. *)
Definition nullishOpt {A : Type} (a b : option A) : option A :=
  match a with
  | Some _ => a
  | None => b
  end.

(** [!!a] for a boolean property that may be missing. *)
Definition toBool (a : option bool) : bool := nullish a false.

(** Case folding of the regular expression flag [i], as far as it matters
    for a pattern of ASCII characters: a character of the text matches a
    letter of the pattern when it is that letter in either case, and no
    character outside ASCII folds to an ASCII one. *)
Definition lower (c : ascii) : ascii :=
  let n := N_of_ascii c in
  if ((65 <=? n) && (n <=? 90))%N then ascii_of_N (n + 32) else c.

Fixpoint lowerStr (s : string) : string :=
  match s with
  | EmptyString => EmptyString
  | String c s' => String (lower c) (lowerStr s')
  end.

(** Does the literal [pat], read case-insensitively, match at the start of
    [s]? *)
Fixpoint matchesHere (pat s : string) : bool :=
  match pat, s with
  | EmptyString, _ => true
  | String _ _, EmptyString => false
  | String p pat', String c s' =>
      Ascii.eqb (lower p) (lower c) && matchesHere pat' s'
  end.

(** [/pat/i.test(s)] for a pattern without metacharacters: the literal
    occurs somewhere in [s], letter case apart. *)
Fixpoint test_i (pat s : string) : bool :=
  matchesHere pat s ||
  match s with
  | EmptyString => false
  | String _ s' => test_i pat s'
  end.

(** White space of [String.prototype.trim] on the 8-bit range: tab, line
    feed, vertical tab, form feed, carriage return, space and the
    no-break space. *)
Definition isSpace (c : ascii) : bool :=
  let n := N_of_ascii c in
  (((9 <=? n) && (n <=? 13)) || (n =? 32) || (n =? 160))%N.

Fixpoint trimStart (s : string) : string :=
  match s with
  | EmptyString => EmptyString
  | String c s' => if isSpace c then trimStart s' else s
  end.

(** Drops trailing white space: a character is kept when it is not white
    space or something is kept after it. *)
Fixpoint trimEnd (s : string) : string :=
  match s with
  | EmptyString => EmptyString
  | String c s' =>
      match trimEnd s' with
      | EmptyString => if isSpace c then EmptyString else String c EmptyString
      | rest => String c rest
      end
  end.

(** [s.trim()] *)
Definition trim (s : string) : string := trimEnd (trimStart s).

(** [s.split("\n")]: the pieces between line feeds, at least one. *)
Fixpoint splitLines (s : string) : list string :=
  match s with
  | EmptyString => [EmptyString]
  | String c s' =>
      if Ascii.eqb c "010"%char then EmptyString :: splitLines s'
      else
        match splitLines s' with
        | [] => [String c EmptyString]
        | line :: rest => String c line :: rest
        end
  end.

End Js.

(* ================================================================== *)
(** ** [api/client.js]: error normalization of the fetch wrapper *)
(* ================================================================== *)

Module Client.

Import Js.

(** What a rejected API call throws: an [Error] whose [message] is always
    set, and whose [status] is set only by [apiRequest] for a non-2xx
    response ([None] is [undefined], as for a network failure, an abort or
    a timeout), together with the parsed body. *)
Record error : Type := Error {
  message : string;
  status : option Z;
  payload : value
}.

(** How an awaited call ends. *)
Inductive outcome (A : Type) : Type :=
| Returned (a : A)
| Thrown (e : error).
Arguments Returned {A} a.
Arguments Thrown {A} e.

Section Parsing.

(** [Number.prototype.toString], a built-in. *)
Variable Number_toString : Q -> string.

(** [JSON.parse], a built-in: [None] when it throws a [SyntaxError]. *)
Variable JSON_parse : string -> option value.

(** The message of the [TypeError] the engine throws when a value cannot
    be converted to a string. *)
Variable toPrimitiveMessage : string.

(** [None] when [join] throws. *)
Definition toErrorMessage (payload : value) : option string :=
  if negb (truthy payload) then Some "Request failed"
  else
    match payload with
    | Str s => Some s
    | _ =>
        match prop payload "detail" with
        | Str detail => Some detail
        | Arr detail =>
            join Number_toString ", "
              (map (fun d =>
                      let msg := prop d "msg" in
                      if truthy msg then msg else Str "Invalid request")
                 detail)
        | _ => Some "Request failed"
        end
    end.

(** The part of the response [apiRequest] reads. *)
Record response : Type := Response {
  ok : bool;
  resp_status : Z;
  text : string
}.

Definition parseJsonSafe (resp : response) : value :=
  if (text resp =? "")%string then Null
  else
    match JSON_parse (text resp) with
    | Some v => v
    | None => Obj [("detail", Str (text resp))]
    end.

(** [apiRequest] from the point where [fetch] has resolved with [resp]:
    the parsed body for a 2xx response, otherwise the thrown error. A
    [TypeError] of [toErrorMessage] passes through the [finally] block:
    it has the engine's message and neither [status] nor [payload]. *)
Definition apiRequest (resp : response) : outcome value :=
  let payload := parseJsonSafe resp in
  if negb (ok resp) then
    match toErrorMessage payload with
    | Some m =>
        let msg :=
          if (m =? "")%string
          then "HTTP " ++ Number_toString (inject_Z (resp_status resp))
          else m in
        Thrown (Error msg (Some (resp_status resp)) payload)
    | None => Thrown (Error toPrimitiveMessage None Undefined)
    end
  else Returned payload.

End Parsing.

End Client.

(* ================================================================== *)
(** ** [App.js]: mock data, dispatcher and gameplay handlers *)
(* ================================================================== *)

Module App.

Import Js Client.

(** An entry of [MOCK_QUESTIONS]. *)
Module MockQuestion.
Record t : Type := Make {
  id : string;
  prompt : string;
  choices : list string;
  correctIndex : Z;
  explanation : string
}.
End MockQuestion.

(** The [question] state variable: [{id, prompt, choices}]. *)
Module Question.
Record t : Type := Make {
  id : string;
  prompt : string;
  choices : list string
}.
End Question.

(** The object a question fetch resolves with, read through every spelling
    the handlers accept. A property is [None] when it is absent,
    [undefined] or [null]; the others hold values of the types the API
    module documents. *)
Module QuestionReply.
Record t : Type := Make {
  id : option string;
  question_id : option string;
  questionId : option string;
  prompt : option string;
  question : option string;
  text : option string;
  choices : option (list string);
  options : option (list string);
  total_questions : option Z;
  totalQuestions : option Z;
  question_number : option Z;
  questionNumber : option Z
}.
End QuestionReply.

(** The object an answer submission resolves with, likewise. *)
Module AnswerReply.
Record t : Type := Make {
  correct : option bool;
  is_correct : option bool;
  correctIndex : option Z;
  correct_index : option Z;
  explanation : option string;
  score : option Z;
  questionNumber : option Z;
  question_number : option Z;
  totalQuestions : option Z;
  total_questions : option Z;
  gameOver : option bool;
  game_over : option bool
}.
End AnswerReply.

(** The [answerResult] state variable: the normalized reply. *)
Module AnswerResult.
Record t : Type := Make {
  correct : bool;
  correctIndex : Z;
  explanation : string;
  score : Z;
  questionNumber : Z;
  totalQuestions : Z;
  gameOver : bool
}.
End AnswerResult.

Definition q1 : MockQuestion.t :=
  MockQuestion.Make "q1"
    "In classic arcade cabinets, what does CRT stand for?"
    ["Cathode-Ray Tube"; "Core Runtime"; "Color Render Technique";
     "Circuit Relay Trigger"]
    0
    "CRT stands for Cathode-Ray Tube, used in older displays.".

Definition q2 : MockQuestion.t :=
  MockQuestion.Make "q2"
    "Which color is often associated with 'neon' cyberpunk accents?"
    ["Beige"; "Neon Cyan"; "Olive"; "Brown"]
    1
    "Neon cyan (and magenta) are iconic cyberpunk palette accents.".

Definition q3 : MockQuestion.t :=
  MockQuestion.Make "q3"
    "What input did many early arcade games rely on most?"
    ["Touchscreen"; "Mouse"; "Joystick + buttons"; "Voice commands"]
    2
    "Joystick + buttons were the standard controls in arcades.".

Definition MOCK_QUESTIONS : list MockQuestion.t := [q1; q2; q3].

(** [MOCK_QUESTIONS.length] *)
Definition MOCK_LENGTH : Z := Z.of_nat (length MOCK_QUESTIONS).

(** What indexing outside the array yields; every property read on it
    would throw. [mockItem_in_range] shows the program never gets it. *)
Definition noQuestion : MockQuestion.t := MockQuestion.Make "" "" [] 0 "".

(** [MOCK_QUESTIONS[i]] *)
Definition mockItem (i : Z) : MockQuestion.t :=
  if i <? 0 then noQuestion else nth (Z.to_nat i) MOCK_QUESTIONS noQuestion.

Definition clamp (n min max : Z) : Z := Z.max min (Z.min max n).

(** The gameplay and UX state variables of [App]. The abort controller of
    [abortRef] is created and cancelled by the handlers but its signal is
    never handed to a request, so it is left out. *)
Module State.
Record t : Type := Make {
  gameStarted : bool;
  question : option Question.t;
  selectedIndex : option Z;
  answerResult : option AnswerResult.t;
  score : Z;
  questionNumber : Z;
  totalQuestions : Z;
  gameOver : bool;
  loading : bool;
  error : string;
  usingMockBackend : bool
}.
End State.

(** The values [useState] is given. *)
Definition initialState : State.t :=
  State.Make false None None None 0 0 MOCK_LENGTH false false "" false.

(** A call of a state setter. *)
Inductive setter : Type :=
| SetGameStarted (b : bool)
| SetQuestion (q : option Question.t)
| SetSelectedIndex (i : option Z)
| SetAnswerResult (r : option AnswerResult.t)
| SetScore (n : Z)
| SetQuestionNumber (n : Z)
| SetTotalQuestions (n : Z)
| SetGameOver (b : bool)
| SetLoading (b : bool)
| SetError (msg : string)
| SetUsingMockBackend (b : bool).

Definition apply (st : State.t) (c : setter) : State.t :=
  let '(State.Make gs q sel ar sc qn tn go ld er um) := st in
  match c with
  | SetGameStarted b => State.Make b q sel ar sc qn tn go ld er um
  | SetQuestion x => State.Make gs x sel ar sc qn tn go ld er um
  | SetSelectedIndex x => State.Make gs q x ar sc qn tn go ld er um
  | SetAnswerResult x => State.Make gs q sel x sc qn tn go ld er um
  | SetScore x => State.Make gs q sel ar x qn tn go ld er um
  | SetQuestionNumber x => State.Make gs q sel ar sc x tn go ld er um
  | SetTotalQuestions x => State.Make gs q sel ar sc qn x go ld er um
  | SetGameOver x => State.Make gs q sel ar sc qn tn x ld er um
  | SetLoading x => State.Make gs q sel ar sc qn tn go x er um
  | SetError x => State.Make gs q sel ar sc qn tn go ld x um
  | SetUsingMockBackend x => State.Make gs q sel ar sc qn tn go ld er x
  end.

(** The state once every setter call of a handler has taken effect. *)
Definition replay (calls : list setter) (st : State.t) : State.t :=
  fold_left apply calls st.

(** *** Handlers as computations: setter calls so far, and how it ended *)

Definition M (A : Type) : Type := (list setter * outcome A)%type.

Definition ret {A : Type} (a : A) : M A := ([], Returned a).

Definition throw {A : Type} (e : error) : M A := ([], Thrown e).

Definition emit (c : setter) : M unit := ([c], Returned tt).

(** [await] of a call whose reply is [r]. *)
Definition await {A : Type} (r : outcome A) : M A := ([], r).

Definition bind {A B : Type} (m : M A) (k : A -> M B) : M B :=
  match m with
  | (calls, Returned a) => let '(calls', r) := k a in ((calls ++ calls')%list, r)
  | (calls, Thrown e) => (calls, Thrown e)
  end.

Notation "x <- m ;; k" := (bind m (fun x => k))
  (at level 61, m at next level, right associativity).
Notation "m ;; k" := (bind m (fun _ => k))
  (at level 61, right associativity).

(** [try { body } catch (e) { handler }] *)
Definition tryCatch {A : Type} (body : M A) (handler : error -> M A) : M A :=
  match body with
  | (calls, Returned a) => (calls, Returned a)
  | (calls, Thrown e) => let '(calls', r) := handler e in ((calls ++ calls')%list, r)
  end.

(** [try { body } finally { fin }] *)
Definition tryFinally {A : Type} (body : M A) (fin : M unit) : M A :=
  let '(calls, r) := body in
  match fin with
  | (calls', Returned _) => ((calls ++ calls')%list, r)
  | (calls', Thrown e) => ((calls ++ calls')%list, Thrown e)
  end.

Definition calls {A : Type} (m : M A) : list setter := fst m.

Definition result {A : Type} (m : M A) : outcome A := snd m.

(** *** The dispatcher *)

(** [status === n] *)
Definition statusIs (status : option Z) (n : Z) : bool :=
  match status with
  | Some k => k =? n
  | None => false
  end.

(** The local [looksLikeMissingEndpoint] of [tryBackendOrMock]. *)
Definition looksLikeMissingEndpoint (e : error) : bool :=
  let status := Client.status e in
  let msg := orStr (Some (Client.message e)) "" in
  statusIs status 404 ||
  statusIs status 405 ||
  test_i "Failed to fetch" msg ||
  test_i "NetworkError" msg ||
  test_i "CORS" msg.

Definition tryBackendOrMock {A : Type} (fn mockFn : unit -> M A) : M A :=
  tryCatch (fn tt)
    (fun e =>
       if looksLikeMissingEndpoint e then
         emit (SetUsingMockBackend true) ;;
         mockFn tt
       else throw e).

(** *** The mock provider *)

Definition mockStart : M unit :=
  let q := mockItem 0 in
  emit (SetScore 0) ;;
  emit (SetQuestionNumber 1) ;;
  emit (SetTotalQuestions MOCK_LENGTH) ;;
  emit (SetQuestion (Some (Question.Make (MockQuestion.id q)
                             (MockQuestion.prompt q) (MockQuestion.choices q)))) ;;
  emit (SetSelectedIndex None) ;;
  emit (SetAnswerResult None) ;;
  emit (SetGameOver false) ;;
  emit (SetGameStarted true) ;;
  ret tt.

Definition mockGetQuestion (currentNumber : Z) : QuestionReply.t :=
  let idx :=
    clamp ((if currentNumber =? 0 then 1 else currentNumber) - 1)
      0 (MOCK_LENGTH - 1) in
  let q := mockItem idx in
  {| QuestionReply.id := Some (MockQuestion.id q);
     QuestionReply.question_id := None;
     QuestionReply.questionId := None;
     QuestionReply.prompt := Some (MockQuestion.prompt q);
     QuestionReply.question := None;
     QuestionReply.text := None;
     QuestionReply.choices := Some (MockQuestion.choices q);
     QuestionReply.options := None;
     QuestionReply.total_questions := Some MOCK_LENGTH;
     QuestionReply.totalQuestions := None;
     QuestionReply.question_number := Some (idx + 1);
     QuestionReply.questionNumber := None |}.

(** Reads [score] and [questionNumber] of the render it was created in. *)
Definition mockSubmitAnswer (st : State.t) (questionId : string)
    (selectedIdx : Z) : AnswerReply.t :=
  let q :=
    match find (fun x => (MockQuestion.id x =? questionId)%string)
            MOCK_QUESTIONS with
    | Some x => x
    | None => mockItem 0
    end in
  let correct := selectedIdx =? MockQuestion.correctIndex q in
  let newScore := State.score st + (if correct then 1 else 0) in
  let isLast := State.questionNumber st >=? MOCK_LENGTH in
  {| AnswerReply.correct := Some correct;
     AnswerReply.is_correct := None;
     AnswerReply.correctIndex := Some (MockQuestion.correctIndex q);
     AnswerReply.correct_index := None;
     AnswerReply.explanation := Some (MockQuestion.explanation q);
     AnswerReply.score := Some newScore;
     AnswerReply.questionNumber := Some (State.questionNumber st);
     AnswerReply.question_number := None;
     AnswerReply.totalQuestions := Some MOCK_LENGTH;
     AnswerReply.total_questions := None;
     AnswerReply.gameOver := Some isLast;
     AnswerReply.game_over := None |}.

(** *** The gameplay handlers *)

(** The argument of [setQuestion] in [handleStartGame] and [handleNext]. *)
Definition questionOf (q : QuestionReply.t) : Question.t :=
  {| Question.id :=
       orStr (QuestionReply.id q)
         (orStr (QuestionReply.question_id q)
            (orStr (QuestionReply.questionId q) "unknown"));
     Question.prompt :=
       orStr (QuestionReply.prompt q)
         (orStr (QuestionReply.question q)
            (orStr (QuestionReply.text q) "Question"));
     Question.choices :=
       orArr (QuestionReply.choices q) (orArr (QuestionReply.options q) []) |}.

(** [e?.message || fallback] *)
Definition messageOr (e : error) (fallback : string) : string :=
  orStr (Some (Client.message e)) fallback.

Definition handleStartGame (startReply : outcome unit)
    (questionReply : outcome QuestionReply.t) (st : State.t) : M unit :=
  emit (SetError "") ;;
  emit (SetLoading true) ;;
  tryFinally
    (tryCatch
       (tryBackendOrMock (fun _ => await startReply) (fun _ => mockStart) ;;
        (* After start, load first question *)
        q <- tryBackendOrMock (fun _ => await questionReply)
               (fun _ => ret (mockGetQuestion 1)) ;;
        emit (SetQuestion (Some (questionOf q))) ;;
        let tn :=
          nullish (nullishOpt (QuestionReply.total_questions q)
                     (QuestionReply.totalQuestions q)) MOCK_LENGTH in
        let qn :=
          nullish (nullishOpt (QuestionReply.question_number q)
                     (QuestionReply.questionNumber q)) 1 in
        emit (SetTotalQuestions tn) ;;
        emit (SetQuestionNumber qn) ;;
        emit (SetScore 0) ;;
        emit (SetSelectedIndex None) ;;
        emit (SetAnswerResult None) ;;
        emit (SetGameOver false) ;;
        emit (SetGameStarted true))
       (fun e => emit (SetError (messageOr e "Unable to start game"))))
    (emit (SetLoading false)).

(** The local [normalized] of [handleSelectAnswer]. *)
Definition normalized (result : AnswerReply.t) (st : State.t)
    : AnswerResult.t :=
  {| AnswerResult.correct :=
       toBool (nullishOpt (AnswerReply.correct result)
                 (AnswerReply.is_correct result));
     AnswerResult.correctIndex :=
       nullish (nullishOpt (AnswerReply.correctIndex result)
                  (AnswerReply.correct_index result)) 0;
     AnswerResult.explanation := nullish (AnswerReply.explanation result) "";
     AnswerResult.score := nullish (AnswerReply.score result) (State.score st);
     AnswerResult.questionNumber :=
       nullish (nullishOpt (AnswerReply.questionNumber result)
                  (AnswerReply.question_number result))
         (State.questionNumber st);
     AnswerResult.totalQuestions :=
       nullish (nullishOpt (AnswerReply.totalQuestions result)
                  (AnswerReply.total_questions result))
         (State.totalQuestions st);
     AnswerResult.gameOver :=
       toBool (nullishOpt (AnswerReply.gameOver result)
                 (AnswerReply.game_over result)) |}.

Definition isNull {A : Type} (a : option A) : bool :=
  match a with
  | Some _ => false
  | None => true
  end.

Definition handleSelectAnswer (idx : Z) (reply : outcome AnswerReply.t)
    (st : State.t) : M unit :=
  match State.question st with
  | None => ret tt
  | Some question =>
      if State.loading st || negb (isNull (State.selectedIndex st))
         || State.gameOver st
      then ret tt
      else
        emit (SetError "") ;;
        emit (SetLoading true) ;;
        tryFinally
          (tryCatch
             (emit (SetSelectedIndex (Some idx)) ;;
              result <- tryBackendOrMock (fun _ => await reply)
                          (fun _ => ret (mockSubmitAnswer st
                                           (Question.id question) idx)) ;;
              let normalized := normalized result st in
              emit (SetAnswerResult (Some normalized)) ;;
              emit (SetScore (AnswerResult.score normalized)) ;;
              emit (SetTotalQuestions (AnswerResult.totalQuestions normalized)) ;;
              emit (SetGameOver (AnswerResult.gameOver normalized)))
             (fun e =>
                emit (SetSelectedIndex None) ;;
                emit (SetError (messageOr e "Unable to submit answer"))))
          (emit (SetLoading false))
  end.

Definition handleNext (reply : outcome QuestionReply.t) (st : State.t)
    : M unit :=
  match State.answerResult st with
  | None => ret tt
  | Some answerResult =>
      if State.loading st then ret tt
      else if AnswerResult.gameOver answerResult then
        (* stay on game over view *)
        emit (SetGameOver true)
      else
        emit (SetError "") ;;
        emit (SetLoading true) ;;
        tryFinally
          (tryCatch
             (let nextNumber := State.questionNumber st + 1 in
              q <- tryBackendOrMock (fun _ => await reply)
                     (fun _ => ret (mockGetQuestion nextNumber)) ;;
              emit (SetQuestion (Some (questionOf q))) ;;
              let tn :=
                nullish (nullishOpt (QuestionReply.total_questions q)
                           (QuestionReply.totalQuestions q))
                  (State.totalQuestions st) in
              let qn :=
                nullish (nullishOpt (QuestionReply.question_number q)
                           (QuestionReply.questionNumber q)) nextNumber in
              emit (SetTotalQuestions tn) ;;
              emit (SetQuestionNumber qn) ;;
              emit (SetSelectedIndex None) ;;
              emit (SetAnswerResult None) ;;
              emit (SetGameOver false))
             (fun e => emit (SetError (messageOr e "Unable to load next question"))))
          (emit (SetLoading false))
  end.

(** The [onClick] of the restart button. *)
Definition handleRestart : M unit :=
  emit (SetGameStarted false) ;;
  emit (SetQuestion None) ;;
  emit (SetSelectedIndex None) ;;
  emit (SetAnswerResult None) ;;
  emit (SetGameOver false) ;;
  emit (SetError "").

(** *** Sessions: user actions with the replies the backend gave *)

Inductive event : Type :=
| ClickStart (startReply : outcome unit) (questionReply : outcome QuestionReply.t)
| ClickChoice (idx : Z) (reply : outcome AnswerReply.t)
| ClickNext (reply : outcome QuestionReply.t)
| ClickRestart.

Definition handler (ev : event) (st : State.t) : M unit :=
  match ev with
  | ClickStart startReply questionReply =>
      handleStartGame startReply questionReply st
  | ClickChoice idx reply => handleSelectAnswer idx reply st
  | ClickNext reply => handleNext reply st
  | ClickRestart => handleRestart
  end.

(** The state of the render after the handler has run to its end. *)
Definition step (st : State.t) (ev : event) : State.t :=
  replay (calls (handler ev st)) st.

Definition session (evs : list event) (st : State.t) : State.t :=
  fold_left step evs st.

(** A reply that [tryBackendOrMock] answers from the mock provider. *)
Definition missingEndpoint {A : Type} (r : outcome A) : bool :=
  match r with
  | Returned _ => false
  | Thrown e => looksLikeMissingEndpoint e
  end.

(** Every real call of the event failed the way a missing backend does. *)
Definition mockServed (ev : event) : bool :=
  match ev with
  | ClickStart startReply questionReply =>
      missingEndpoint startReply && missingEndpoint questionReply
  | ClickChoice _ reply => missingEndpoint reply
  | ClickNext reply => missingEndpoint reply
  | ClickRestart => true
  end.

End App.

(* ================================================================== *)
(** ** [App.js]: the create form of the admin panel *)
(* ================================================================== *)

Module AdminCreateForm.

Import Js.

(** The state variables of the form. [correctIndex] is 0 at first and
    then [Number(e.target.value)] of the index input. The value of an
    input of type [number] is the empty string or a valid floating-point
    number, so the conversion gives a finite number (0 for the empty
    string), which need not be an integer. *)
Module Form.
Record t : Type := Make {
  prompt : string;
  choicesText : string;
  correctIndex : Q;
  explanation : string;
  localError : string
}.
End Form.

(** The argument of [onCreate]; [explanation] is [None] for [undefined]. *)
Module Payload.
Record t : Type := Make {
  prompt : string;
  choices : list string;
  correctIndex : Q;
  explanation : option string
}.
End Payload.

(** The setters the create button calls. *)
Inductive setter : Type :=
| SetPrompt (s : string)
| SetExplanation (s : string)
| SetLocalError (s : string).

Definition apply (f : Form.t) (c : setter) : Form.t :=
  let '(Form.Make p ct ci ex le) := f in
  match c with
  | SetPrompt x => Form.Make x ct ci ex le
  | SetExplanation x => Form.Make p ct ci x le
  | SetLocalError x => Form.Make p ct ci ex x
  end.

Definition replay (calls : list setter) (f : Form.t) : Form.t :=
  fold_left apply calls f.

(** [.filter(Boolean)] on strings keeps the non-empty ones. *)
Definition parseChoices (f : Form.t) : list string :=
  filter (fun s => negb (s =? "")%string)
    (map trim (splitLines (Form.choicesText f))).

(** [x || undefined] on a string. *)
Definition orUndefined (s : string) : option string :=
  if (s =? "")%string then None else Some s.

(** What a click on the create button does: the setter calls, and the
    payload handed to [onCreate] if it is called. [onCreate] posts the
    payload to [/admin/questions] and never rejects (it catches every
    error itself), so the calls after it always run. *)
Definition onClick (f : Form.t) : list setter * option Payload.t :=
  let choices := parseChoices f in
  let n := Z.of_nat (length choices) in
  if (trim (Form.prompt f) =? "")%string then
    ([SetLocalError ""; SetLocalError "Prompt is required."], None)
  else if n <? 2 then
    ([SetLocalError ""; SetLocalError "Provide at least 2 choices."], None)
  else if lt (Form.correctIndex f) 0 || ge (Form.correctIndex f) (inject_Z n)
  then
    ([SetLocalError "";
      SetLocalError "Correct index is out of range for the provided choices."],
     None)
  else
    ([SetLocalError ""; SetPrompt ""; SetExplanation ""],
     Some {| Payload.prompt := trim (Form.prompt f);
             Payload.choices := choices;
             Payload.correctIndex := Form.correctIndex f;
             Payload.explanation := orUndefined (trim (Form.explanation f)) |}).

(** The form after the click. *)
Definition afterClick (f : Form.t) : Form.t := replay (fst (onClick f)) f.

(** The request of the click, if one is sent. *)
Definition request (f : Form.t) : option Payload.t := snd (onClick f).

End AdminCreateForm.

(* ================================================================== *)
(** ** Vocabulary of the properties *)
(* ================================================================== *)

Import Js Client App.

(** The literal [pat] occurs in [s], letter case apart. *)
Definition occurs_i (pat s : string) : Prop :=
  exists pre mid post,
    s = pre ++ mid ++ post /\ lowerStr mid = lowerStr pat.

(** The errors the fallback is meant for: HTTP 404 or 405, or a message
    that reads like a network failure or a CORS rejection. *)
Definition MissingEndpoint (e : error) : Prop :=
  status e = Some 404 \/
  status e = Some 405 \/
  occurs_i "Failed to fetch" (message e) \/
  occurs_i "NetworkError" (message e) \/
  occurs_i "CORS" (message e).

(** The reply [r] shows the mock question at position [p] (1-based). *)
Definition showsMockQuestion (p : Z) (r : QuestionReply.t) : Prop :=
  exists q,
    nth_error MOCK_QUESTIONS (Z.to_nat (p - 1)) = Some q /\
    QuestionReply.id r = Some (MockQuestion.id q) /\
    QuestionReply.prompt r = Some (MockQuestion.prompt q) /\
    QuestionReply.choices r = Some (MockQuestion.choices q) /\
    QuestionReply.question_number r = Some p /\
    QuestionReply.total_questions r = Some MOCK_LENGTH.

(** The event [ev] with each reply replaced by what the mock provider
    returns for the same call in state [st]. *)
Definition asIfMock (st : State.t) (ev : event) : event :=
  match ev with
  | ClickStart _ _ => ClickStart (Returned tt) (Returned (mockGetQuestion 1))
  | ClickChoice idx _ =>
      ClickChoice idx
        (Returned (mockSubmitAnswer st
                     (match State.question st with
                      | Some q => Question.id q
                      | None => ""
                      end) idx))
  | ClickNext _ =>
      ClickNext (Returned (mockGetQuestion (State.questionNumber st + 1)))
  | ClickRestart => ClickRestart
  end.

(** A session in which every call is answered with the mock provider's
    data. *)
Definition mockSession (evs : list event) (st : State.t) : State.t :=
  fold_left (fun s ev => step s (asIfMock s ev)) evs st.

Definition isReturned {A : Type} (r : outcome A) : bool :=
  match r with
  | Returned _ => true
  | Thrown _ => false
  end.

(** The handler of [ev] calls [getCurrentQuestion] in state [st] and the
    call fails with HTTP 404. *)
Definition questionFetch404 (st : State.t) (ev : event) : bool :=
  match ev with
  | ClickStart startReply (Thrown e) =>
      (isReturned startReply || missingEndpoint startReply) &&
      statusIs (status e) 404
  | ClickNext (Thrown e) =>
      match State.answerResult st with
      | Some answerResult =>
          negb (State.loading st) &&
          negb (AnswerResult.gameOver answerResult) &&
          statusIs (status e) 404
      | None => false
      end
  | _ => false
  end.

(** A setter call that shows a message in the error banner. *)
Definition surfacesError (c : setter) : bool :=
  match c with
  | SetError msg => negb (msg =? "")%string
  | _ => false
  end.

(** A setter call that would leave mock mode. *)
Definition clearsMockFlag (c : setter) : bool :=
  match c with
  | SetUsingMockBackend false => true
  | _ => false
  end.


(** The choice buttons react in [st]: the guard of [handleSelectAnswer]
    lets a click through. *)
Definition selectable (st : State.t) : bool :=
  negb (isNull (State.question st)) &&
  negb (State.loading st) &&
  isNull (State.selectedIndex st) &&
  negb (State.gameOver st).

(** The error a handler's [catch] block receives when it runs for [ev]
    in state [st], with the text the handler shows for an empty message:
    the error of the first real call that [tryBackendOrMock] throws
    again. *)
Definition caught (st : State.t) (ev : event) : option (error * string) :=
  match ev with
  | ClickStart startReply questionReply =>
      match startReply, questionReply with
      | Thrown e, _ =>
          if looksLikeMissingEndpoint e then
            match questionReply with
            | Thrown e' =>
                if looksLikeMissingEndpoint e' then None
                else Some (e', "Unable to start game")
            | Returned _ => None
            end
          else Some (e, "Unable to start game")
      | Returned _, Thrown e' =>
          if looksLikeMissingEndpoint e' then None
          else Some (e', "Unable to start game")
      | Returned _, Returned _ => None
      end
  | ClickChoice _ (Thrown e) =>
      if selectable st && negb (looksLikeMissingEndpoint e)
      then Some (e, "Unable to submit answer") else None
  | ClickNext (Thrown e) =>
      match State.answerResult st with
      | Some answerResult =>
          if negb (State.loading st) &&
             negb (AnswerResult.gameOver answerResult) &&
             negb (looksLikeMissingEndpoint e)
          then Some (e, "Unable to load next question") else None
      | None => None
      end
  | _ => None
  end.

(** What the awaited [tryBackendOrMock] call resolves with when the real
    call ended as [r] and the mock operation returns [mock]; [None] when
    the error of the real call is thrown again. *)
Definition answered {A : Type} (r : outcome A) (mock : A) : option A :=
  match r with
  | Returned a => Some a
  | Thrown e => if looksLikeMissingEndpoint e then Some mock else None
  end.

(** The setter call [tryBackendOrMock] makes on the way. *)
Definition fallbackCalls {A : Type} (r : outcome A) : list setter :=
  if missingEndpoint r then [SetUsingMockBackend true] else [].

(** The setter calls of the first [tryBackendOrMock] of [handleStartGame]. *)
Definition startCalls (r : outcome unit) : list setter :=
  if missingEndpoint r then (SetUsingMockBackend true :: calls mockStart)%list
  else [].

(** The invariant behind the score bound of mock sessions: the score
    counts at most the questions answered so far. *)
Definition scoreInv (st : State.t) : Prop :=
  State.totalQuestions st = MOCK_LENGTH /\
  0 <= State.score st <= State.questionNumber st /\
  State.questionNumber st <= MOCK_LENGTH /\
  (selectable st = true -> State.score st < State.questionNumber st) /\
  (forall r, State.answerResult st = Some r ->
             AnswerResult.gameOver r = false ->
             State.questionNumber st < MOCK_LENGTH).



(** A line of a text is a piece between two line feeds; it is empty, as
    a choice, when it holds white space only. [countLines seen s] counts
    the lines of [s] that are not, reading [s] once: [seen] tells whether
    the line being read has shown a character that is not white space. *)
Fixpoint countLines (seen : bool) (s : string) : nat :=
  match s with
  | EmptyString => if seen then 1%nat else 0%nat
  | String c s' =>
      if Ascii.eqb c "010"%char
      then ((if seen then 1 else 0) + countLines false s')%nat
      else countLines (seen || negb (isSpace c)) s'
  end.

(** The number of non-empty choice lines of the text area. *)
Definition nonEmptyLines (s : string) : nat := countLines false s.

(** A text of white space only (the empty text included). *)
Fixpoint whitespaceOnly (s : string) : bool :=
  match s with
  | EmptyString => true
  | String c s' => isSpace c && whitespaceOnly s'
  end.

(** The three messages of the create form. *)
Definition promptRequired : string := "Prompt is required.".

Definition tooFewChoices : string := "Provide at least 2 choices.".

Definition indexOutOfRange : string :=
  "Correct index is out of range for the provided choices.".

(** *** Replies used in the examples *)

Definition e404 : error := Error "Not Found" (Some 404) Null.

Definition e500 : error := Error "Internal Server Error" (Some 500) Null.

(** A backend that serves question 4 of 10. *)
Definition backendQuestion4 : QuestionReply.t :=
  {| QuestionReply.id := Some "b4";
     QuestionReply.question_id := None;
     QuestionReply.questionId := None;
     QuestionReply.prompt := Some "Which year was Pong released?";
     QuestionReply.question := None;
     QuestionReply.text := None;
     QuestionReply.choices := Some ["1972"; "1982"];
     QuestionReply.options := None;
     QuestionReply.total_questions := Some 10;
     QuestionReply.totalQuestions := None;
     QuestionReply.question_number := Some 4;
     QuestionReply.questionNumber := None |}.

(** A backend answer that grades by its own rules. *)
Definition backendAnswer42 : AnswerReply.t :=
  {| AnswerReply.correct := Some true;
     AnswerReply.is_correct := None;
     AnswerReply.correctIndex := Some 3;
     AnswerReply.correct_index := None;
     AnswerReply.explanation := None;
     AnswerReply.score := Some 42;
     AnswerReply.questionNumber := None;
     AnswerReply.question_number := None;
     AnswerReply.totalQuestions := None;
     AnswerReply.total_questions := None;
     AnswerReply.gameOver := None;
     AnswerReply.game_over := None |}.

(** The body [{"detail":""}] and a parser that reads it. *)
Definition quote : string := String "034"%char EmptyString.

Definition emptyDetailBody : string :=
  "{" ++ quote ++ "detail" ++ quote ++ ":" ++ quote ++ quote ++ "}".

Definition parseExample (s : string) : option value :=
  if (s =? emptyDetailBody)%string then Some (Obj [("detail", Str "")])
  else None.



(** How the engine prints the integers of the examples (500, 7): their
    decimal digits. No other number is printed there. *)
Definition printExample (n : Q) : string :=
  if (Qden n =? 1)%positive && (Z.abs (Qnum n) <? 1000)
  then NilZero.string_of_int (Z.to_int (Qnum n))
  else "".

(** The message V8 gives the [TypeError] of a failed conversion. *)
Definition cannotConvert : string :=
  "Cannot convert object to primitive value".

(** A form with a blank prompt and the initial four choices. *)
Definition LF : string := String "010"%char EmptyString.

Definition blankPromptForm : AdminCreateForm.Form.t :=
  AdminCreateForm.Form.Make "  "
    ("Choice A" ++ LF ++ "Choice B" ++ LF ++ "Choice C" ++ LF ++ "Choice D")
    0 "" "".

Definition filledForm : AdminCreateForm.Form.t :=
  AdminCreateForm.Form.Make " Who made Pong? "
    ("Atari" ++ LF ++ "  " ++ LF ++ " Namco ")
    1 " " "stale".

(** An answer object without any of the properties the handler reads. *)
Definition emptyAnswer : AnswerReply.t :=
  AnswerReply.Make None None None None None None None None None None None None.

(* ================================================================== *)
(** ** String lemmas *)
(* ================================================================== *)

Lemma matchesHere_spec (pat s : string) :
  matchesHere pat s = true <->
  exists mid post, s = mid ++ post /\ lowerStr mid = lowerStr pat.
Proof.
  revert s; induction pat as [|p pat IH]; intros s; simpl.
  - split; [intros _|reflexivity].
    exists EmptyString, s; split; reflexivity.
  - destruct s as [|c s].
    + split; [discriminate|].
      intros (mid & post & Hs & Hm).
      destruct mid; simpl in *; discriminate.
    + rewrite andb_true_iff, Ascii.eqb_eq, IH. split.
      * intros (Hc & mid & post & Hs & Hm).
        exists (String c mid), post; simpl.
        split; [now rewrite Hs | now rewrite Hm, Hc].
      * intros (mid & post & Hs & Hm).
        destruct mid as [|m mid]; simpl in *; [discriminate|].
        injection Hs as -> ->. injection Hm as Hc Hm.
        split; [now symmetry|].
        exists mid, post; split; [reflexivity|assumption].
Qed.

Lemma test_i_spec (pat s : string) :
  test_i pat s = true <-> occurs_i pat s.
Proof.
  unfold occurs_i; induction s as [|c s IH].
  - simpl. rewrite orb_false_r, matchesHere_spec. split.
    + intros (mid & post & Hs & Hm). now exists EmptyString, mid, post.
    + intros (pre & mid & post & Hs & Hm).
      destruct pre; simpl in Hs; [|discriminate].
      now exists mid, post.
  - cbn [test_i]. rewrite orb_true_iff, matchesHere_spec, IH. split.
    + intros [(mid & post & Hs & Hm)|(pre & mid & post & Hs & Hm)].
      * now exists EmptyString, mid, post.
      * exists (String c pre), mid, post. simpl. now rewrite Hs.
    + intros (pre & mid & post & Hs & Hm).
      destruct pre as [|c' pre]; simpl in Hs.
      * left. now exists mid, post.
      * right. injection Hs as -> ->. now exists pre, mid, post.
Qed.

Lemma statusIs_spec (status : option Z) (n : Z) :
  statusIs status n = true <-> status = Some n.
Proof.
  destruct status as [k|]; simpl.
  - rewrite Z.eqb_eq. split; congruence.
  - split; discriminate.
Qed.

Lemma orStr_same (s : string) : orStr (Some s) "" = s.
Proof.
  unfold orStr. destruct (String.eqb_spec s ""); congruence.
Qed.

Lemma looksLikeMissingEndpoint_spec (e : error) :
  looksLikeMissingEndpoint e = true <-> MissingEndpoint e.
Proof.
  unfold looksLikeMissingEndpoint, MissingEndpoint.
  rewrite orStr_same, !orb_true_iff, !statusIs_spec, !test_i_spec.
  tauto.
Qed.

(* ================================================================== *)
(** ** The mock provider *)
(* ================================================================== *)

Lemma MOCK_LENGTH_eq : MOCK_LENGTH = 3.
Proof. reflexivity. Qed.

(** Inside the array, indexing yields the element: the placeholder of
    [mockItem] is never what the mock provider reads. *)
Lemma mockItem_in_range (i : Z) :
  0 <= i < MOCK_LENGTH ->
  nth_error MOCK_QUESTIONS (Z.to_nat i) = Some (mockItem i).
Proof.
  rewrite MOCK_LENGTH_eq; intros Hi.
  assert (i = 0 \/ i = 1 \/ i = 2) as [->|[->| ->]] by lia; reflexivity.
Qed.

Lemma clamp_range (n lo hi : Z) : lo <= hi -> lo <= clamp n lo hi <= hi.
Proof. unfold clamp; lia. Qed.

Lemma mockGetQuestion_position (n : Z) :
  showsMockQuestion (clamp (if n =? 0 then 1 else n) 1 MOCK_LENGTH)
    (mockGetQuestion n).
Proof.
  set (m := if n =? 0 then 1 else n).
  assert (clamp m 1 MOCK_LENGTH = clamp (m - 1) 0 (MOCK_LENGTH - 1) + 1) as Hp
    by (unfold clamp; lia).
  pose proof (clamp_range (m - 1) 0 (MOCK_LENGTH - 1)) as Hr.
  rewrite MOCK_LENGTH_eq in Hr at 1. specialize (Hr ltac:(lia)).
  exists (mockItem (clamp (m - 1) 0 (MOCK_LENGTH - 1))).
  rewrite Hp. replace (clamp (m - 1) 0 (MOCK_LENGTH - 1) + 1 - 1)
    with (clamp (m - 1) 0 (MOCK_LENGTH - 1)) by lia.
  split; [apply mockItem_in_range; lia|].
  unfold mockGetQuestion; fold m; cbn [QuestionReply.id QuestionReply.prompt
    QuestionReply.choices QuestionReply.question_number
    QuestionReply.total_questions].
  repeat split; reflexivity.
Qed.

(** C1. For every question [q] of the mock list and every prior score,
    [mockSubmitAnswer] called with [q]'s id and [q]'s correct index
    returns [correct = true] and the score plus one; called with any other
    index it returns [correct = false] and the score unchanged. *)
Theorem mockSubmitAnswer_grades (q : MockQuestion.t) (st : State.t) :
  In q MOCK_QUESTIONS ->
  (let r := mockSubmitAnswer st (MockQuestion.id q) (MockQuestion.correctIndex q) in
   AnswerReply.correct r = Some true /\
   AnswerReply.score r = Some (State.score st + 1)) /\
  (forall selectedIdx, selectedIdx <> MockQuestion.correctIndex q ->
   let r := mockSubmitAnswer st (MockQuestion.id q) selectedIdx in
   AnswerReply.correct r = Some false /\
   AnswerReply.score r = Some (State.score st)).
Proof.
  intros Hq.
  assert (find (fun x => (MockQuestion.id x =? MockQuestion.id q)%string)
            MOCK_QUESTIONS = Some q) as Hfind.
  { destruct Hq as [<-|[<-|[<-|[]]]]; reflexivity. }
  unfold mockSubmitAnswer; rewrite Hfind; cbn zeta;
    cbn [AnswerReply.correct AnswerReply.score].
  split.
  - rewrite Z.eqb_refl. split; reflexivity.
  - intros i Hi. apply Z.eqb_neq in Hi. rewrite Hi.
    split; [reflexivity|]. f_equal; lia.
Qed.

Lemma mockSubmitAnswer_grades_witness :
  AnswerReply.score
    (mockSubmitAnswer (step initialState (ClickStart (Thrown e404) (Thrown e404)))
       "q2" 1) = Some 1 /\
  AnswerReply.correct
    (mockSubmitAnswer (step initialState (ClickStart (Thrown e404) (Thrown e404)))
       "q2" 0) = Some false.
Proof.
  pose proof (mockSubmitAnswer_grades q2
    (step initialState (ClickStart (Thrown e404) (Thrown e404)))
    ltac:(simpl; tauto)) as [[_ Hs] Hw].
  split; [exact Hs|].
  exact (proj1 (Hw 0 ltac:(discriminate))).
Defined.

(** C2, as the code has it. The [gameOver] flag [mockSubmitAnswer] returns
    is true exactly when the question number at submission time is at
    least the mock question count; while that number does not exceed the
    count, as for every question the mock provider itself served, this is
    the case exactly when the two are equal. *)
Theorem mockSubmitAnswer_gameOver (st : State.t) (questionId : string)
    (selectedIdx : Z) :
  let r := mockSubmitAnswer st questionId selectedIdx in
  (AnswerReply.gameOver r = Some true <->
   State.questionNumber st >= MOCK_LENGTH) /\
  (State.questionNumber st <= MOCK_LENGTH ->
   (AnswerReply.gameOver r = Some true <->
    State.questionNumber st = MOCK_LENGTH)) /\
  (forall n, exists p,
     QuestionReply.question_number (mockGetQuestion n) = Some p /\
     1 <= p <= MOCK_LENGTH).
Proof.
  cbn zeta. unfold mockSubmitAnswer; cbn [AnswerReply.gameOver].
  assert (forall b, Some b = Some true <-> b = true) as Hsome
    by (intros b; split; congruence).
  rewrite Hsome, Z.geb_le. repeat split; try lia.
  intros n. destruct (mockGetQuestion_position n) as (q & _ & _ & _ & _ & Hn & _).
  eexists; split; [exact Hn|].
  apply clamp_range. rewrite MOCK_LENGTH_eq; lia.
Qed.

(** The claim of C2 fails when the backend served the question and the
    answer falls back to the mock provider: at question 4 of the backend's
    ten, the mock answer says the game is over although 4 is not the mock
    question count. *)
Lemma mockSubmitAnswer_gameOver_beyond_count :
  let st := step initialState (ClickStart (Returned tt) (Returned backendQuestion4)) in
  let st' := step st (ClickChoice 0 (Thrown e404)) in
  State.questionNumber st = 4 /\
  MOCK_LENGTH = 3 /\
  option_map AnswerResult.gameOver (State.answerResult st') = Some true /\
  ~ (AnswerReply.gameOver (mockSubmitAnswer st "b4" 0) = Some true <->
     State.questionNumber st = MOCK_LENGTH).
Proof.
  cbv zeta. repeat split.
  intros [H _]. specialize (H eq_refl). discriminate H.
Qed.

(** C6. For every integer [n] outside [1, MOCK_LENGTH], [mockGetQuestion]
    returns the question at the nearest valid position (the first when [n]
    is below the range, the last when it is above), with [question_number]
    that position and [total_questions] the length of the mock list. *)
Theorem mockGetQuestion_clamps (n : Z) :
  n < 1 \/ MOCK_LENGTH < n ->
  showsMockQuestion (if n <? 1 then 1 else MOCK_LENGTH) (mockGetQuestion n).
Proof.
  intros Hn. pose proof (mockGetQuestion_position n) as H.
  rewrite MOCK_LENGTH_eq in *.
  destruct (Z.ltb_spec n 1).
  - replace (clamp (if n =? 0 then 1 else n) 1 3) with 1 in H; [exact H|].
    destruct (Z.eqb_spec n 0); unfold clamp; lia.
  - replace (clamp (if n =? 0 then 1 else n) 1 3) with 3 in H; [exact H|].
    destruct (Z.eqb_spec n 0); unfold clamp; lia.
Qed.

Lemma mockGetQuestion_clamps_witness :
  showsMockQuestion 1 (mockGetQuestion (-5)) /\
  showsMockQuestion 1 (mockGetQuestion 0) /\
  showsMockQuestion 3 (mockGetQuestion 7).
Proof.
  repeat split.
  - apply (mockGetQuestion_clamps (-5)). left; reflexivity.
  - apply (mockGetQuestion_clamps 0). left; reflexivity.
  - apply (mockGetQuestion_clamps 7). right; reflexivity.
Defined.

(* ================================================================== *)
(** ** The dispatcher *)
(* ================================================================== *)

Lemma tryBackendOrMock_returned {A : Type} (a : A) (mockFn : unit -> M A) :
  tryBackendOrMock (fun _ => await (Returned a)) mockFn = ret a.
Proof. reflexivity. Qed.

Lemma tryBackendOrMock_fallback {A : Type} (e : error) (mockFn : unit -> M A) :
  looksLikeMissingEndpoint e = true ->
  tryBackendOrMock (fun _ => await (Thrown e)) mockFn =
  (emit (SetUsingMockBackend true) ;; mockFn tt).
Proof.
  intros H. unfold tryBackendOrMock, tryCatch, await. rewrite H.
  unfold bind, emit. destruct (mockFn tt) as [cs r]. reflexivity.
Qed.

Lemma tryBackendOrMock_rethrow {A : Type} (e : error) (mockFn : unit -> M A) :
  looksLikeMissingEndpoint e = false ->
  tryBackendOrMock (fun _ => await (Thrown e)) mockFn = throw e.
Proof.
  intros H. unfold tryBackendOrMock, tryCatch, await. rewrite H. reflexivity.
Qed.

(** C3. For every error [e] thrown by the real call, [tryBackendOrMock]
    sets mock mode and returns what the mock operation returns if and only
    if [e] has status 404 or 405 or a message matching [Failed to fetch],
    [NetworkError] or [CORS] (letter case apart); every other error is
    thrown again as it is, with no state change. *)
Theorem tryBackendOrMock_classifies (A : Type) (e : error)
    (mockFn : unit -> M A) :
  let m := tryBackendOrMock (fun _ => await (Thrown e)) mockFn in
  (MissingEndpoint e ->
   m = ((SetUsingMockBackend true :: calls (mockFn tt))%list,
        result (mockFn tt))) /\
  (~ MissingEndpoint e -> m = ([], Thrown e)) /\
  (In (SetUsingMockBackend true) (calls m) <-> MissingEndpoint e).
Proof.
  cbn zeta. rewrite <- looksLikeMissingEndpoint_spec.
  destruct (looksLikeMissingEndpoint e) eqn:He.
  - rewrite (tryBackendOrMock_fallback _ _ He).
    unfold bind, emit, calls, result. destruct (mockFn tt) as [cs r]; simpl.
    repeat split; auto; congruence.
  - rewrite (tryBackendOrMock_rethrow _ _ He).
    repeat split; try congruence; simpl; tauto.
Qed.

Lemma tryBackendOrMock_classifies_witness :
  tryBackendOrMock (fun _ => await (Thrown e404))
    (fun _ => ret (mockGetQuestion 1)) =
  ([SetUsingMockBackend true], Returned (mockGetQuestion 1)) /\
  tryBackendOrMock (fun _ => await (Thrown e500))
    (fun _ => ret (mockGetQuestion 1)) =
  ([], Thrown e500).
Proof.
  split.
  - apply (tryBackendOrMock_classifies _ e404 (fun _ => ret (mockGetQuestion 1))).
    left; reflexivity.
  - apply (tryBackendOrMock_classifies _ e500 (fun _ => ret (mockGetQuestion 1))).
    rewrite <- looksLikeMissingEndpoint_spec. discriminate.
Defined.

(* ================================================================== *)
(** ** The setter calls of each handler, case by case *)
(* ================================================================== *)

Arguments mockSubmitAnswer : simpl never.
Arguments mockGetQuestion : simpl never.
Arguments normalized : simpl never.
Arguments questionOf : simpl never.
Arguments messageOr : simpl never.
Arguments looksLikeMissingEndpoint : simpl never.
Arguments clamp : simpl never.
Arguments MOCK_LENGTH : simpl never.

Lemma tryBackendOrMock_answered {A : Type} (r : outcome A) (mock a : A) :
  answered r mock = Some a ->
  tryBackendOrMock (fun _ => await r) (fun _ => ret mock) =
  (fallbackCalls r, Returned a).
Proof.
  unfold answered, fallbackCalls, missingEndpoint.
  destruct r as [b|e]; [intros [= ->]; reflexivity|].
  destruct (looksLikeMissingEndpoint e) eqn:He; [|discriminate].
  intros [= ->]. now rewrite (tryBackendOrMock_fallback _ _ He).
Qed.

Lemma answered_none {A : Type} (r : outcome A) (mock : A) :
  answered r mock = None ->
  exists e, r = Thrown e /\ looksLikeMissingEndpoint e = false.
Proof.
  destruct r as [a|e]; simpl; [discriminate|].
  destruct (looksLikeMissingEndpoint e) eqn:He; [discriminate|]. now exists e.
Qed.

Lemma replay_app (l1 l2 : list setter) (st : State.t) :
  replay (l1 ++ l2) st = replay l2 (replay l1 st).
Proof. apply fold_left_app. Qed.

Lemma handleSelectAnswer_ignored (idx : Z) (reply : outcome AnswerReply.t)
    (st : State.t) :
  selectable st = false -> handleSelectAnswer idx reply st = ret tt.
Proof.
  unfold selectable, handleSelectAnswer.
  destruct (State.question st); [|reflexivity].
  destruct (State.loading st); [reflexivity|].
  destruct (State.selectedIndex st); [reflexivity|].
  destruct (State.gameOver st); [reflexivity|discriminate].
Qed.

Lemma handleSelectAnswer_answered (idx : Z) (reply : outcome AnswerReply.t)
    (st : State.t) (question : Question.t) (r : AnswerReply.t) :
  State.question st = Some question ->
  selectable st = true ->
  answered reply (mockSubmitAnswer st (Question.id question) idx) = Some r ->
  handleSelectAnswer idx reply st =
  (([SetError ""; SetLoading true; SetSelectedIndex (Some idx)] ++
    fallbackCalls reply ++
    [SetAnswerResult (Some (normalized r st));
     SetScore (AnswerResult.score (normalized r st));
     SetTotalQuestions (AnswerResult.totalQuestions (normalized r st));
     SetGameOver (AnswerResult.gameOver (normalized r st));
     SetLoading false])%list, Returned tt).
Proof.
  intros Hq Hsel Hr. unfold selectable in Hsel. unfold handleSelectAnswer.
  rewrite Hq in *.
  destruct (State.loading st); [discriminate|].
  destruct (State.selectedIndex st); [discriminate|].
  destruct (State.gameOver st); [discriminate|].
  cbn [orb negb isNull].
  rewrite (tryBackendOrMock_answered _ _ _ Hr).
  unfold fallbackCalls. destruct (missingEndpoint reply); reflexivity.
Qed.

Lemma handleSelectAnswer_failed (idx : Z) (e : error) (st : State.t) :
  selectable st = true ->
  looksLikeMissingEndpoint e = false ->
  handleSelectAnswer idx (Thrown e) st =
  ([SetError ""; SetLoading true; SetSelectedIndex (Some idx);
    SetSelectedIndex None; SetError (messageOr e "Unable to submit answer");
    SetLoading false], Returned tt).
Proof.
  intros Hsel He. unfold selectable in Hsel. unfold handleSelectAnswer.
  destruct (State.question st); [|discriminate].
  destruct (State.loading st); [discriminate|].
  destruct (State.selectedIndex st); [discriminate|].
  destruct (State.gameOver st); [discriminate|].
  cbn [orb negb isNull].
  rewrite (tryBackendOrMock_rethrow _ _ He). reflexivity.
Qed.

Lemma handleNext_answered (reply : outcome QuestionReply.t) (st : State.t)
    (answerResult : AnswerResult.t) (q : QuestionReply.t) :
  State.answerResult st = Some answerResult ->
  State.loading st = false ->
  AnswerResult.gameOver answerResult = false ->
  answered reply (mockGetQuestion (State.questionNumber st + 1)) = Some q ->
  handleNext reply st =
  (([SetError ""; SetLoading true] ++
    fallbackCalls reply ++
    [SetQuestion (Some (questionOf q));
     SetTotalQuestions
       (nullish (nullishOpt (QuestionReply.total_questions q)
                   (QuestionReply.totalQuestions q)) (State.totalQuestions st));
     SetQuestionNumber
       (nullish (nullishOpt (QuestionReply.question_number q)
                   (QuestionReply.questionNumber q))
          (State.questionNumber st + 1));
     SetSelectedIndex None; SetAnswerResult None; SetGameOver false;
     SetLoading false])%list, Returned tt).
Proof.
  intros Har Hld Hgo Hq. unfold handleNext. rewrite Har, Hld, Hgo.
  cbn zeta. rewrite (tryBackendOrMock_answered _ _ _ Hq).
  unfold fallbackCalls. destruct (missingEndpoint reply); reflexivity.
Qed.

Lemma handleNext_failed (e : error) (st : State.t)
    (answerResult : AnswerResult.t) :
  State.answerResult st = Some answerResult ->
  State.loading st = false ->
  AnswerResult.gameOver answerResult = false ->
  looksLikeMissingEndpoint e = false ->
  handleNext (Thrown e) st =
  ([SetError ""; SetLoading true;
    SetError (messageOr e "Unable to load next question");
    SetLoading false], Returned tt).
Proof.
  intros Har Hld Hgo He. unfold handleNext. rewrite Har, Hld, Hgo.
  cbn zeta. rewrite (tryBackendOrMock_rethrow _ _ He). reflexivity.
Qed.

Lemma handleNext_cases (st : State.t) :
  (forall reply, handleNext reply st = ret tt) \/
  (forall reply, handleNext reply st = emit (SetGameOver true)) \/
  exists answerResult,
    State.answerResult st = Some answerResult /\
    State.loading st = false /\
    AnswerResult.gameOver answerResult = false.
Proof.
  unfold handleNext. destruct (State.answerResult st) as [r|]; [|now left].
  destruct (State.loading st); [now left|].
  destruct (AnswerResult.gameOver r) eqn:Hgo; [now right; left|].
  right; right. now exists r.
Qed.

Lemma handleStartGame_answered (startReply : outcome unit)
    (questionReply : outcome QuestionReply.t) (st : State.t)
    (q : QuestionReply.t) :
  isReturned startReply || missingEndpoint startReply = true ->
  answered questionReply (mockGetQuestion 1) = Some q ->
  handleStartGame startReply questionReply st =
  (([SetError ""; SetLoading true] ++
    startCalls startReply ++
    fallbackCalls questionReply ++
    [SetQuestion (Some (questionOf q));
     SetTotalQuestions
       (nullish (nullishOpt (QuestionReply.total_questions q)
                   (QuestionReply.totalQuestions q)) MOCK_LENGTH);
     SetQuestionNumber
       (nullish (nullishOpt (QuestionReply.question_number q)
                   (QuestionReply.questionNumber q)) 1);
     SetScore 0; SetSelectedIndex None; SetAnswerResult None;
     SetGameOver false; SetGameStarted true; SetLoading false])%list,
   Returned tt).
Proof.
  intros Hs Hq. unfold handleStartGame, startCalls.
  rewrite (tryBackendOrMock_answered _ _ _ Hq).
  unfold fallbackCalls.
  destruct startReply as [[]|e]; simpl in Hs |- *.
  - destruct (missingEndpoint questionReply); reflexivity.
  - rewrite Hs. rewrite (tryBackendOrMock_fallback _ _ Hs).
    destruct (missingEndpoint questionReply); reflexivity.
Qed.

Lemma handleStartGame_question_failed (startReply : outcome unit) (e : error)
    (st : State.t) :
  isReturned startReply || missingEndpoint startReply = true ->
  looksLikeMissingEndpoint e = false ->
  handleStartGame startReply (Thrown e) st =
  (([SetError ""; SetLoading true] ++
    startCalls startReply ++
    [SetError (messageOr e "Unable to start game"); SetLoading false])%list,
   Returned tt).
Proof.
  intros Hs He. unfold handleStartGame, startCalls.
  rewrite (tryBackendOrMock_rethrow _ _ He).
  destruct startReply as [[]|e']; simpl in Hs |- *.
  - reflexivity.
  - rewrite Hs. rewrite (tryBackendOrMock_fallback _ _ Hs). reflexivity.
Qed.

Lemma handleStartGame_start_failed (e : error)
    (questionReply : outcome QuestionReply.t) (st : State.t) :
  looksLikeMissingEndpoint e = false ->
  handleStartGame (Thrown e) questionReply st =
  ([SetError ""; SetLoading true;
    SetError (messageOr e "Unable to start game"); SetLoading false],
   Returned tt).
Proof.
  intros He. unfold handleStartGame.
  rewrite (tryBackendOrMock_rethrow _ _ He). reflexivity.
Qed.

(** *** What the mock provider's replies hold *)

Lemma mockGetQuestion_fields (n : Z) :
  let q := mockGetQuestion n in
  QuestionReply.total_questions q = Some MOCK_LENGTH /\
  QuestionReply.question_number q =
    Some (clamp ((if n =? 0 then 1 else n) - 1) 0 (MOCK_LENGTH - 1) + 1).
Proof. split; reflexivity. Qed.

Lemma normalized_mock (st : State.t) (questionId : string) (idx : Z) :
  let n := normalized (mockSubmitAnswer st questionId idx) st in
  State.score st <= AnswerResult.score n <= State.score st + 1 /\
  AnswerResult.totalQuestions n = MOCK_LENGTH /\
  AnswerResult.gameOver n = (State.questionNumber st >=? MOCK_LENGTH).
Proof.
  unfold normalized, mockSubmitAnswer; cbn.
  split; [|split; reflexivity].
  match goal with |- context [if ?b then 1 else 0] => destruct b end; lia.
Qed.

Lemma missingEndpoint_answered {A : Type} (r : outcome A) (mock : A) :
  missingEndpoint r = true -> answered r mock = Some mock.
Proof.
  destruct r as [a|e]; simpl; [discriminate|]. now intros ->.
Qed.

Lemma missingEndpoint_fallbackCalls {A : Type} (r : outcome A) :
  missingEndpoint r = true -> fallbackCalls r = [SetUsingMockBackend true].
Proof. unfold fallbackCalls. now intros ->. Qed.

Lemma selectable_question (st : State.t) :
  selectable st = true -> exists q, State.question st = Some q.
Proof.
  unfold selectable. destruct (State.question st) as [q|]; [now exists q|].
  discriminate.
Qed.

(* ================================================================== *)
(** ** Sessions served by the mock provider: the score bound *)
(* ================================================================== *)

Lemma scoreInv_start (st : State.t) (startReply : outcome unit)
    (questionReply : outcome QuestionReply.t) :
  mockServed (ClickStart startReply questionReply) = true ->
  scoreInv (step st (ClickStart startReply questionReply)) /\
  State.score (step st (ClickStart startReply questionReply)) = 0.
Proof.
  simpl. rewrite andb_true_iff. intros [Hs Hq].
  unfold step, handler.
  rewrite (handleStartGame_answered _ _ _ (mockGetQuestion 1))
    by (rewrite ?Hs, ?orb_true_r; auto using missingEndpoint_answered).
  unfold startCalls. rewrite Hs, (missingEndpoint_fallbackCalls _ Hq).
  destruct st as [gs q sel ar sc qn tn go ld er um].
  split; [|reflexivity].
  unfold scoreInv; cbn. unfold mockGetQuestion; cbn.
  rewrite MOCK_LENGTH_eq; unfold clamp.
  repeat split; try lia; discriminate.
Qed.

Lemma scoreInv_choice (st : State.t) (idx : Z) (reply : outcome AnswerReply.t) :
  missingEndpoint reply = true ->
  scoreInv st -> scoreInv (step st (ClickChoice idx reply)).
Proof.
  intros Hr Hinv. unfold step, handler.
  destruct (selectable st) eqn:Hsel.
  - destruct (selectable_question _ Hsel) as [q Hq].
    rewrite (handleSelectAnswer_answered _ _ _ q
               (mockSubmitAnswer st (Question.id q) idx))
      by auto using missingEndpoint_answered.
    rewrite (missingEndpoint_fallbackCalls _ Hr).
    pose proof (normalized_mock st (Question.id q) idx) as (Hsc & Htn & Hgo).
    cbn zeta in Hsc, Htn, Hgo.
    destruct Hinv as (Ht & Hs & Hn & Hlt & _). specialize (Hlt Hsel).
    set (n := normalized _ st) in *.
    destruct st as [gs q0 sel ar sc qn tn go ld er um].
    unfold scoreInv; cbn in *.
    repeat split; try lia; try assumption.
    + unfold selectable; cbn. rewrite andb_false_r. discriminate.
    + intros r [= <-] Hr0. rewrite Hgo in Hr0. lia.
  - rewrite (handleSelectAnswer_ignored _ _ _ Hsel). exact Hinv.
Qed.

Lemma scoreInv_next (st : State.t) (reply : outcome QuestionReply.t) :
  missingEndpoint reply = true ->
  scoreInv st -> scoreInv (step st (ClickNext reply)).
Proof.
  intros Hr Hinv. unfold step, handler.
  destruct (handleNext_cases st) as [H|[H|(r & Har & Hld & Hgo)]];
    rewrite ?H.
  - exact Hinv.
  - destruct Hinv as (Ht & Hs & Hn & Hlt & Hlast).
    destruct st as [gs q0 sel ar sc qn tn go ld er um].
    unfold scoreInv; cbn in *. repeat split; try lia; try assumption.
    unfold selectable; cbn. rewrite andb_false_r. discriminate.
  - rewrite (handleNext_answered _ _ r
               (mockGetQuestion (State.questionNumber st + 1)))
      by auto using missingEndpoint_answered.
    rewrite (missingEndpoint_fallbackCalls _ Hr).
    destruct Hinv as (Ht & Hs & Hn & Hlt & Hlast).
    specialize (Hlast r Har Hgo).
    destruct st as [gs q0 sel ar sc qn tn go ld er um].
    unfold scoreInv; cbn in *. unfold mockGetQuestion.
    cbn [QuestionReply.total_questions QuestionReply.totalQuestions
         QuestionReply.question_number QuestionReply.questionNumber
         nullish nullishOpt].
    rewrite MOCK_LENGTH_eq in *.
    destruct (Z.eqb_spec (qn + 1) 0); [lia|].
    unfold clamp. repeat split; try lia. discriminate.
Qed.

Lemma scoreInv_restart (st : State.t) :
  scoreInv st -> scoreInv (step st ClickRestart).
Proof.
  intros (Ht & Hs & Hn & Hlt & Hlast).
  destruct st as [gs q0 sel ar sc qn tn go ld er um].
  unfold scoreInv; cbn in *. repeat split; try lia; try assumption.
  discriminate.
Qed.

Lemma scoreInv_step (st : State.t) (ev : event) :
  mockServed ev = true -> scoreInv st -> scoreInv (step st ev).
Proof.
  destruct ev as [sr qr|idx r|r|]; intros Hm Hinv.
  - now apply scoreInv_start.
  - now apply scoreInv_choice.
  - now apply scoreInv_next.
  - now apply scoreInv_restart.
Qed.

Lemma scoreInv_session (evs : list event) (st : State.t) :
  forallb mockServed evs = true -> scoreInv st -> scoreInv (session evs st).
Proof.
  revert st; induction evs as [|ev evs IH]; intros st Hm Hinv; [exact Hinv|].
  simpl in Hm. apply andb_true_iff in Hm as [Hev Hm].
  simpl. apply IH; [assumption|]. now apply scoreInv_step.
Qed.

(** C7. In a session served by the mock provider, starting from a fresh
    game start (score 0), after any sequence of user actions the score is
    at most the total question count. *)
Theorem mock_score_bounded (st0 : State.t) (startReply : outcome unit)
    (questionReply : outcome QuestionReply.t) (evs : list event) :
  mockServed (ClickStart startReply questionReply) = true ->
  forallb mockServed evs = true ->
  let fresh := step st0 (ClickStart startReply questionReply) in
  State.score fresh = 0 /\
  State.score (session evs fresh) <= State.totalQuestions (session evs fresh).
Proof.
  intros Hstart Hevs fresh.
  destruct (scoreInv_start st0 _ _ Hstart) as [Hinv H0].
  split; [exact H0|].
  destruct (scoreInv_session evs _ Hevs Hinv) as (Ht & Hs & Hn & _).
  unfold fresh. lia.
Qed.

Lemma mock_score_bounded_witness :
  let fresh := step initialState (ClickStart (Thrown e404) (Thrown e404)) in
  let evs := [ClickChoice 0 (Thrown e404); ClickNext (Thrown e404);
              ClickChoice 1 (Thrown e404); ClickChoice 2 (Thrown e404);
              ClickNext (Thrown e404); ClickChoice 2 (Thrown e404);
              ClickNext (Thrown e404); ClickChoice 2 (Thrown e404)] in
  State.score fresh = 0 /\
  State.score (session evs fresh) <= State.totalQuestions (session evs fresh).
Proof.
  intros fresh evs.
  apply (mock_score_bounded initialState (Thrown e404) (Thrown e404) evs);
    reflexivity.
Defined.

(* ================================================================== *)
(** ** Case analysis of a handler run *)
(* ================================================================== *)

(** Splits a goal about [handleSelectAnswer idx reply st] into its three
    runs: answered (by the backend or the mock provider), failed, and
    ignored by the guard. *)
Ltac choice_cases st idx reply :=
  let Hsel := fresh "Hsel" in
  let Hq := fresh "Hq" in
  let Hans := fresh "Hans" in
  let He := fresh "He" in
  let q := fresh "q" in
  let r := fresh "r" in
  let e := fresh "e" in
  destruct (selectable st) eqn:Hsel;
  [ destruct (selectable_question _ Hsel) as [q Hq];
    destruct (answered reply (mockSubmitAnswer st (Question.id q) idx))
      as [r|] eqn:Hans;
    [ rewrite (handleSelectAnswer_answered _ _ _ q r Hq Hsel Hans)
    | destruct (answered_none _ _ Hans) as (e & -> & He);
      rewrite (handleSelectAnswer_failed _ _ _ Hsel He) ]
  | rewrite (handleSelectAnswer_ignored _ _ _ Hsel) ].

(** Likewise for [handleNext reply st]: ignored, staying on the game-over
    view, answered, failed. *)
Ltac next_cases st reply :=
  let Har := fresh "Har" in
  let Hld := fresh "Hld" in
  let Hgo := fresh "Hgo" in
  let Hans := fresh "Hans" in
  let He := fresh "He" in
  let a := fresh "a" in
  let r := fresh "r" in
  let e := fresh "e" in
  let H := fresh "H" in
  destruct (handleNext_cases st) as [H|[H|(a & Har & Hld & Hgo)]];
  [ rewrite !H | rewrite !H |
    destruct (answered reply (mockGetQuestion (State.questionNumber st + 1)))
      as [r|] eqn:Hans;
    [ rewrite (handleNext_answered _ _ a r Har Hld Hgo Hans)
    | destruct (answered_none _ _ Hans) as (e & -> & He);
      rewrite (handleNext_failed _ _ a Har Hld Hgo He) ] ].

(** Likewise for [handleStartGame startReply questionReply st]: the start
    call failed, the question was answered, the question fetch failed. *)
Ltac start_cases st startReply questionReply :=
  let Hs := fresh "Hs" in
  let Hans := fresh "Hans" in
  let He := fresh "He" in
  let r := fresh "r" in
  let e := fresh "e" in
  destruct (isReturned startReply || missingEndpoint startReply) eqn:Hs;
  [ destruct (answered questionReply (mockGetQuestion 1)) as [r|] eqn:Hans;
    [ rewrite (handleStartGame_answered _ _ st r Hs Hans)
    | destruct (answered_none _ _ Hans) as (e & -> & He);
      rewrite (handleStartGame_question_failed _ _ st Hs He) ]
  | destruct startReply as [[]|e]; [discriminate Hs|];
    simpl in Hs; rewrite (handleStartGame_start_failed _ _ st Hs) ].

(* ================================================================== *)
(** ** Normalization of the answer *)
(* ================================================================== *)

(** C10. When the object a submitted answer resolves with has none of the
    spellings of a field, the normalized result takes the default for that
    field: [correct] false, [correctIndex] 0, [explanation] empty, [score],
    [questionNumber] and [totalQuestions] the previous values, [gameOver]
    false. *)
Theorem handleSelectAnswer_defaults (st : State.t) (idx : Z)
    (result : AnswerReply.t) :
  selectable st = true ->
  let st' := step st (ClickChoice idx (Returned result)) in
  exists n,
    State.answerResult st' = Some n /\
    State.score st' = AnswerResult.score n /\
    State.totalQuestions st' = AnswerResult.totalQuestions n /\
    State.gameOver st' = AnswerResult.gameOver n /\
    (AnswerReply.correct result = None ->
     AnswerReply.is_correct result = None ->
     AnswerResult.correct n = false) /\
    (AnswerReply.correctIndex result = None ->
     AnswerReply.correct_index result = None ->
     AnswerResult.correctIndex n = 0) /\
    (AnswerReply.explanation result = None ->
     AnswerResult.explanation n = "") /\
    (AnswerReply.score result = None ->
     AnswerResult.score n = State.score st) /\
    (AnswerReply.questionNumber result = None ->
     AnswerReply.question_number result = None ->
     AnswerResult.questionNumber n = State.questionNumber st) /\
    (AnswerReply.totalQuestions result = None ->
     AnswerReply.total_questions result = None ->
     AnswerResult.totalQuestions n = State.totalQuestions st) /\
    (AnswerReply.gameOver result = None ->
     AnswerReply.game_over result = None ->
     AnswerResult.gameOver n = false).
Proof.
  intros Hsel st'. exists (normalized result st).
  assert (State.answerResult st' = Some (normalized result st) /\
          State.score st' = AnswerResult.score (normalized result st) /\
          State.totalQuestions st' =
            AnswerResult.totalQuestions (normalized result st) /\
          State.gameOver st' = AnswerResult.gameOver (normalized result st))
    as (H1 & H2 & H3 & H4).
  { unfold st', step, handler.
    destruct (selectable_question _ Hsel) as [q Hq].
    rewrite (handleSelectAnswer_answered idx (Returned result) st q result
               Hq Hsel eq_refl).
    destruct st; repeat split. }
  repeat (split; [assumption|]).
  unfold normalized; cbn.
  repeat split; intros; repeat match goal with H : _ = None |- _ => rewrite H end;
    reflexivity.
Qed.

Lemma handleSelectAnswer_defaults_witness :
  let st := step initialState (ClickStart (Thrown e404) (Thrown e404)) in
  exists n,
    State.answerResult (step st (ClickChoice 2 (Returned emptyAnswer))) = Some n /\
    AnswerResult.correct n = false /\
    AnswerResult.correctIndex n = 0 /\
    AnswerResult.explanation n = "" /\
    AnswerResult.score n = 0 /\
    AnswerResult.questionNumber n = 1 /\
    AnswerResult.totalQuestions n = 3 /\
    AnswerResult.gameOver n = false.
Proof.
  intros st.
  destruct (handleSelectAnswer_defaults st 2 emptyAnswer eq_refl)
    as (n & Hn & _ & _ & _ & H1 & H2 & H3 & H4 & H5 & H6 & H7).
  exists n. split; [exact Hn|].
  split; [exact (H1 eq_refl eq_refl)|].
  split; [exact (H2 eq_refl eq_refl)|].
  split; [exact (H3 eq_refl)|].
  split; [exact (H4 eq_refl)|].
  split; [exact (H5 eq_refl eq_refl)|].
  split; [exact (H6 eq_refl eq_refl)|].
  exact (H7 eq_refl eq_refl).
Defined.

(* ================================================================== *)
(** ** Mock mode over a session *)
(* ================================================================== *)

Ltac split_fallbacks :=
  unfold fallbackCalls, startCalls;
  repeat match goal with
         | |- context [missingEndpoint ?r] => destruct (missingEndpoint r) eqn:?
         end.

Lemma handler_keeps_flag (st : State.t) (ev : event) :
  existsb clearsMockFlag (calls (handler ev st)) = false.
Proof.
  destruct ev as [sr qr|idx reply|reply|]; unfold handler.
  - start_cases st sr qr; split_fallbacks; reflexivity.
  - choice_cases st idx reply; split_fallbacks; reflexivity.
  - next_cases st reply; split_fallbacks; reflexivity.
  - reflexivity.
Qed.

Lemma replay_keeps_flag (l : list setter) (st : State.t) :
  existsb clearsMockFlag l = false ->
  State.usingMockBackend st = true ->
  State.usingMockBackend (replay l st) = true.
Proof.
  revert st; induction l as [|c l IH]; intros st Hl Hst; [exact Hst|].
  simpl in Hl. apply orb_false_iff in Hl as [Hc Hl].
  apply (IH _ Hl). destruct st, c as [| | | | | | | | | |[|]];
    try exact Hst; try reflexivity; discriminate Hc.
Qed.

Lemma session_keeps_flag (evs : list event) (st : State.t) :
  State.usingMockBackend st = true ->
  State.usingMockBackend (session evs st) = true.
Proof.
  revert st; induction evs as [|ev evs IH]; intros st Hst; [exact Hst|].
  apply IH. apply replay_keeps_flag; [apply handler_keeps_flag|exact Hst].
Qed.

Lemma replay_no_error (l : list setter) (st : State.t) :
  existsb surfacesError l = false ->
  State.error st = "" ->
  State.error (replay l st) = "".
Proof.
  revert st; induction l as [|c l IH]; intros st Hl Hst; [exact Hst|].
  simpl in Hl. apply orb_false_iff in Hl as [Hc Hl].
  apply (IH _ Hl). destruct st, c; try exact Hst; simpl in Hc |- *.
  apply negb_false_iff in Hc. now apply String.eqb_eq.
Qed.

Lemma mockServed_no_error (st : State.t) (ev : event) :
  mockServed ev = true ->
  existsb surfacesError (calls (handler ev st)) = false.
Proof.
  destruct ev as [sr qr|idx reply|reply|]; unfold handler; simpl; intros Hm.
  - apply andb_true_iff in Hm as [Hs Hq].
    start_cases st sr qr; simpl in *; try congruence.
    split_fallbacks; reflexivity.
  - choice_cases st idx reply; simpl in *; try congruence.
    split_fallbacks; reflexivity.
  - next_cases st reply; simpl in *; try congruence; try reflexivity.
    split_fallbacks; reflexivity.
  - reflexivity.
Qed.

Lemma step_asIfMock (st : State.t) (ev : event) :
  State.usingMockBackend st = true ->
  mockServed ev = true ->
  step st ev = step st (asIfMock st ev).
Proof.
  intros Hum Hm. destruct ev as [sr qr|idx reply|reply|];
    unfold step, handler, asIfMock; simpl in Hm.
  - apply andb_true_iff in Hm as [Hs Hq].
    rewrite (handleStartGame_answered sr qr st (mockGetQuestion 1))
      by (rewrite ?Hs, ?orb_true_r; auto using missingEndpoint_answered).
    rewrite (handleStartGame_answered (Returned tt)
               (Returned (mockGetQuestion 1)) st (mockGetQuestion 1))
      by reflexivity.
    unfold startCalls, fallbackCalls. rewrite Hs, Hq.
    destruct st; simpl in Hum; subst; reflexivity.
  - destruct (selectable st) eqn:Hsel.
    + destruct (selectable_question _ Hsel) as [q Hq]. rewrite Hq.
      rewrite (handleSelectAnswer_answered idx reply st q
                 (mockSubmitAnswer st (Question.id q) idx))
        by auto using missingEndpoint_answered.
      rewrite (handleSelectAnswer_answered idx
                 (Returned (mockSubmitAnswer st (Question.id q) idx)) st q
                 (mockSubmitAnswer st (Question.id q) idx))
        by auto.
      unfold fallbackCalls. rewrite Hm.
      destruct st; simpl in Hum; subst; reflexivity.
    + now rewrite !(handleSelectAnswer_ignored _ _ _ Hsel).
  - destruct (handleNext_cases st) as [H|[H|(a & Har & Hld & Hgo)]].
    + now rewrite !H.
    + now rewrite !H.
    + rewrite (handleNext_answered reply st a
                 (mockGetQuestion (State.questionNumber st + 1)))
        by auto using missingEndpoint_answered.
      rewrite (handleNext_answered
                 (Returned (mockGetQuestion (State.questionNumber st + 1)))
                 st a (mockGetQuestion (State.questionNumber st + 1)))
        by auto.
      unfold fallbackCalls. rewrite Hm.
      destruct st; simpl in Hum; subst; reflexivity.
  - reflexivity.
Qed.

Lemma status404_missing (e : error) :
  statusIs (status e) 404 = true -> looksLikeMissingEndpoint e = true.
Proof.
  intros H. unfold looksLikeMissingEndpoint. cbn zeta. now rewrite H.
Qed.

Lemma session_mockServed (evs : list event) (st : State.t) :
  State.usingMockBackend st = true ->
  State.error st = "" ->
  forallb mockServed evs = true ->
  session evs st = mockSession evs st /\ State.error (session evs st) = "".
Proof.
  revert st; induction evs as [|ev evs IH]; intros st Hum Her Hm.
  - split; [reflexivity|exact Her].
  - simpl in Hm. apply andb_true_iff in Hm as [Hev Hm].
    unfold session, mockSession; cbn [fold_left].
    rewrite <- (step_asIfMock st ev Hum Hev).
    apply IH; [| |exact Hm].
    + apply replay_keeps_flag; [apply handler_keeps_flag|exact Hum].
    + apply replay_no_error; [now apply mockServed_no_error|exact Her].
Qed.

(** C4, as the code has it. Once a call of [getCurrentQuestion] has failed
    with HTTP 404, that call is answered by the mock provider without an
    error message and the mock-mode flag is set and stays set for the rest
    of the session. Every later operation still calls the real API first:
    it is answered by the mock provider, without an error message, when
    its real call fails as a missing endpoint again. *)
Theorem mock_fallback_after_404 (st : State.t) (ev0 : event) :
  questionFetch404 st ev0 = true ->
  let st1 := step st ev0 in
  State.usingMockBackend st1 = true /\
  State.error st1 = "" /\
  (exists n, State.question st1 = Some (questionOf (mockGetQuestion n))) /\
  (forall evs, State.usingMockBackend (session evs st1) = true) /\
  (forall evs, forallb mockServed evs = true ->
     session evs st1 = mockSession evs st1 /\
     State.error (session evs st1) = "").
Proof.
  intros H0 st1.
  assert (State.usingMockBackend st1 = true /\ State.error st1 = "" /\
          exists n, State.question st1 = Some (questionOf (mockGetQuestion n)))
    as (Hum & Her & Hq).
  { unfold st1, step, handler.
    destruct ev0 as [sr [q|e]|idx reply|[q|e]|]; simpl in H0; try discriminate.
    - apply andb_true_iff in H0 as [Hs He]. apply status404_missing in He.
      rewrite (handleStartGame_answered sr (Thrown e) st (mockGetQuestion 1))
        by (simpl; now rewrite ?He).
      unfold fallbackCalls, startCalls; simpl; rewrite He.
      destruct st, (missingEndpoint sr); repeat split; now exists 1.
    - destruct (State.answerResult st) as [a|] eqn:Har; [|discriminate].
      apply andb_true_iff in H0 as [H0 He]. apply status404_missing in He.
      apply andb_true_iff in H0 as [Hld Hgo].
      apply negb_true_iff in Hld, Hgo.
      rewrite (handleNext_answered (Thrown e) st a
                 (mockGetQuestion (State.questionNumber st + 1)))
        by (simpl; now rewrite ?He).
      unfold fallbackCalls; simpl; rewrite He.
      destruct st; repeat split. now eexists. }
  repeat split; try assumption.
  - intros evs. now apply session_keeps_flag.
  - now apply session_mockServed.
  - now apply session_mockServed.
Qed.

Lemma mock_fallback_after_404_witness :
  let st1 := step initialState (ClickStart (Returned tt) (Thrown e404)) in
  let evs := [ClickChoice 0 (Thrown e404); ClickNext (Thrown e404)] in
  State.usingMockBackend st1 = true /\
  session evs st1 = mockSession evs st1 /\
  State.error (session evs st1) = "".
Proof.
  intros st1 evs.
  destruct (mock_fallback_after_404 initialState
              (ClickStart (Returned tt) (Thrown e404)) eq_refl)
    as (Hum & _ & _ & _ & Hevs).
  split; [exact Hum|]. exact (Hevs evs eq_refl).
Defined.

(** The claim of C4 fails: after the question fetch has failed with 404
    and mock mode is on, the next submission still goes to the backend. A
    500 from it is shown to the user and nothing is graded; an answer
    from it is used instead of the mock provider's. *)
Lemma mock_mode_is_not_sticky :
  let st1 := step initialState (ClickStart (Returned tt) (Thrown e404)) in
  questionFetch404 initialState (ClickStart (Returned tt) (Thrown e404)) = true /\
  State.usingMockBackend st1 = true /\
  State.error (step st1 (ClickChoice 0 (Thrown e500))) = "Internal Server Error" /\
  State.answerResult (step st1 (ClickChoice 0 (Thrown e500))) = None /\
  State.score (step st1 (ClickChoice 0 (Returned backendAnswer42))) = 42 /\
  AnswerReply.score (mockSubmitAnswer st1 "q1" 0) = Some 1.
Proof. cbv zeta. repeat split. Qed.

(* ================================================================== *)
(** ** The selected choice *)
(* ================================================================== *)






(* ================================================================== *)
(** ** The create form *)
(* ================================================================== *)

Section CreateForm.

Import AdminCreateForm.

Lemma lt_spec (a b : Q) : reflect (a < b)%Q (lt a b).
Proof.
  unfold lt. destruct (Qle_bool b a) eqn:H; constructor.
  - apply Qle_not_lt. now apply Qle_bool_iff.
  - apply Qnot_le_lt. intros Hle. apply Qle_bool_iff in Hle. congruence.
Qed.

Lemma ge_spec (a b : Q) : reflect (b <= a)%Q (ge a b).
Proof.
  unfold ge. destruct (Qle_bool b a) eqn:H; constructor.
  - now apply Qle_bool_iff.
  - intros Hle. apply Qle_bool_iff in Hle. congruence.
Qed.

(** [trim] leaves nothing exactly of a text of white space. *)
Lemma trim_whitespaceOnly (s : string) :
  (trim s =? "")%string = whitespaceOnly s.
Proof.
  induction s as [|c s IH]; [reflexivity|].
  unfold trim in *. cbn [trimStart whitespaceOnly].
  destruct (isSpace c) eqn:Hc; [exact IH|].
  cbn [trimEnd]. destruct (trimEnd s); [rewrite Hc|]; reflexivity.
Qed.

Lemma splitLines_cons (s : string) :
  exists line rest, splitLines s = line :: rest.
Proof.
  destruct s as [|c s]; [now exists "", []|]. cbn [splitLines].
  destruct (Ascii.eqb c "010"); [now eexists _, _|].
  destruct (splitLines s); now eexists _, _.
Qed.

(** One pass over the text counts what [split], [trim] and [filter]
    leave: the line being read counts when something other than white
    space was seen in it. *)
Lemma countLines_split (s : string) (seen : bool) :
  exists line rest,
    splitLines s = line :: rest /\
    countLines seen s =
    ((if seen || negb (whitespaceOnly line) then 1 else 0) +
     length (filter (fun l => negb (l =? "")%string) (map trim rest)))%nat.
Proof.
  revert seen; induction s as [|c s IH]; intros seen.
  - exists "", []. split; [reflexivity|]. cbn. rewrite orb_false_r.
    now destruct seen.
  - cbn [splitLines countLines]. destruct (Ascii.eqb c "010").
    + exists "", (splitLines s). split; [reflexivity|].
      destruct (IH false) as (line & rest & -> & ->).
      cbn [whitespaceOnly negb map filter]. rewrite orb_false_r.
      rewrite trim_whitespaceOnly. cbn [orb].
      now destruct (whitespaceOnly line).
    + destruct (IH (seen || negb (isSpace c))) as (line & rest & -> & ->).
      exists (String c line), rest. split; [reflexivity|].
      cbn [whitespaceOnly]. rewrite negb_andb, orb_assoc. reflexivity.
Qed.

(** The choices handed over are as many as the text area has non-empty
    lines. *)
Lemma parseChoices_count (f : Form.t) :
  length (parseChoices f) = nonEmptyLines (Form.choicesText f).
Proof.
  unfold parseChoices, nonEmptyLines.
  destruct (countLines_split (Form.choicesText f) false)
    as (line & rest & -> & ->).
  cbn [map filter orb]. rewrite trim_whitespaceOnly.
  now destruct (whitespaceOnly line).
Qed.

(** C8. A click on create with an empty or white-space prompt, or with
    fewer than two non-empty choice lines in the text area, or with a
    correct index outside [0, number of choices), shows the message of
    the first check that fails and sends no request; the request is sent
    only when all three checks pass. The lines are counted on the text
    itself, and the index is any finite number. *)
Theorem create_validation (f : Form.t) :
  let n := nonEmptyLines (Form.choicesText f) in
  let blank := whitespaceOnly (Form.prompt f) = true in
  let few := (n < 2)%nat in
  let outOfRange :=
    (Form.correctIndex f < 0 \/
     inject_Z (Z.of_nat n) <= Form.correctIndex f)%Q in
  (blank \/ few \/ outOfRange ->
   request f = None /\
   ((blank /\ Form.localError (afterClick f) = promptRequired) \/
    (few /\ Form.localError (afterClick f) = tooFewChoices) \/
    (outOfRange /\ Form.localError (afterClick f) = indexOutOfRange))) /\
  (blank -> Form.localError (afterClick f) = promptRequired) /\
  (~ blank -> few -> Form.localError (afterClick f) = tooFewChoices) /\
  (~ blank -> ~ few -> outOfRange ->
   Form.localError (afterClick f) = indexOutOfRange) /\
  (request f <> None <-> ~ blank /\ ~ few /\ ~ outOfRange) /\
  (~ blank -> ~ few -> ~ outOfRange ->
   Form.localError (afterClick f) = "" /\
   request f =
     Some {| Payload.prompt := trim (Form.prompt f);
             Payload.choices := parseChoices f;
             Payload.correctIndex := Form.correctIndex f;
             Payload.explanation := orUndefined (trim (Form.explanation f)) |}).
Proof.
  intros n blank few outOfRange.
  unfold afterClick, request, onClick. cbv zeta.
  rewrite trim_whitespaceOnly, (parseChoices_count f). fold n.
  subst blank few outOfRange.
  destruct (whitespaceOnly (Form.prompt f)) eqn:Hb;
    [|destruct (Z.ltb_spec (Z.of_nat n) 2) as [Hf|Hf];
      [|destruct (lt_spec (Form.correctIndex f) 0) as [Hl|Hl];
        [|destruct (ge_spec (Form.correctIndex f) (inject_Z (Z.of_nat n)))
            as [Hg|Hg]]]];
    destruct f as [p ct ci ex le]; cbn in *;
    (split;
     [intros H;
      first [solve [exfalso; intuition (congruence || lia)]
            |split; [reflexivity|clear H]]|]);
    repeat split; intros; try reflexivity; try congruence; try lia;
    try tauto; try (exfalso; tauto); try (exfalso; lia).
  all: try (left; split; [reflexivity|reflexivity]).
  all: try (right; left; split; [lia|reflexivity]).
  all: try (right; right; split; [tauto|reflexivity]).
Qed.

Lemma create_validation_witness :
  request blankPromptForm = None /\
  Form.localError (afterClick blankPromptForm) = promptRequired /\
  request filledForm =
    Some (Payload.Make "Who made Pong?" ["Atari"; "Namco"] 1 None) /\
  Form.localError (afterClick filledForm) = "".
Proof.
  pose proof (create_validation blankPromptForm) as (H1 & H2 & _).
  pose proof (create_validation filledForm) as (_ & _ & _ & _ & _ & H6).
  assert (whitespaceOnly (Form.prompt filledForm) <> true) as Hb
    by (vm_compute; intros H; discriminate H).
  assert (~ (nonEmptyLines (Form.choicesText filledForm) < 2)%nat) as Hf
    by (vm_compute; lia).
  assert (~ (Form.correctIndex filledForm < 0 \/
             inject_Z (Z.of_nat (nonEmptyLines (Form.choicesText filledForm)))
             <= Form.correctIndex filledForm)%Q) as Hr
    by (vm_compute; intros [H|H]; [discriminate H|now apply H]).
  split; [exact (proj1 (H1 (or_introl eq_refl)))|].
  split; [exact (H2 eq_refl)|].
  split; [exact (proj2 (H6 Hb Hf Hr))|exact (proj1 (H6 Hb Hf Hr))].
Defined.

End CreateForm.

(* ================================================================== *)
(** ** Error messages of the fetch wrapper *)
(* ================================================================== *)







(* ================================================================== *)
(** ** Errors that reach the user, and the state after a start *)
(* ================================================================== *)

Lemma messageOr_nonempty (e : error) (fallback : string) :
  message e <> "" -> messageOr e fallback = message e.
Proof.
  unfold messageOr, orStr. now destruct (String.eqb_spec (message e) "").
Qed.

(** X1. An error that [tryBackendOrMock] throws again ends in the error
    banner: the handler shows its message, or its own default text when
    the message is empty, and re-enables the controls. *)
Theorem caught_error_is_shown (st : State.t) (ev : event) (e : error)
    (fallback : string) :
  caught st ev = Some (e, fallback) ->
  State.error (step st ev) = messageOr e fallback /\
  (message e <> "" -> State.error (step st ev) = message e) /\
  State.loading (step st ev) = false.
Proof.
  intros Hc.
  assert (State.error (step st ev) = messageOr e fallback /\
          State.loading (step st ev) = false) as [Herr Hld].
  { unfold step, handler.
    destruct ev as [[[]|e1] [q|e2]|idx [r|e1]|[q|e1]|]; simpl in Hc;
      try discriminate.
    - destruct (looksLikeMissingEndpoint e2) eqn:He; [discriminate|].
      injection Hc as <- <-.
      rewrite (handleStartGame_question_failed (Returned tt) e2 st eq_refl He).
      destruct st; split; reflexivity.
    - destruct (looksLikeMissingEndpoint e1) eqn:He; [discriminate|].
      injection Hc as <- <-.
      rewrite (handleStartGame_start_failed e1 _ st He).
      destruct st; split; reflexivity.
    - destruct (looksLikeMissingEndpoint e1) eqn:He1.
      + destruct (looksLikeMissingEndpoint e2) eqn:He2; [discriminate|].
        injection Hc as <- <-.
        rewrite (handleStartGame_question_failed (Thrown e1) e2 st He1 He2).
        unfold startCalls; simpl; rewrite He1.
        destruct st; split; reflexivity.
      + injection Hc as <- <-.
        rewrite (handleStartGame_start_failed e1 _ st He1).
        destruct st; split; reflexivity.
    - destruct (selectable st) eqn:Hsel; [|discriminate].
      destruct (looksLikeMissingEndpoint e1) eqn:He; [discriminate|].
      injection Hc as <- <-.
      rewrite (handleSelectAnswer_failed idx e1 st Hsel He).
      destruct st; split; reflexivity.
    - destruct (State.answerResult st) as [a|] eqn:Har; [|discriminate].
      destruct (State.loading st) eqn:Hl; [discriminate|].
      destruct (AnswerResult.gameOver a) eqn:Hgo; [discriminate|].
      destruct (looksLikeMissingEndpoint e1) eqn:He; [discriminate|].
      injection Hc as <- <-.
      rewrite (handleNext_failed e1 st a Har Hl Hgo He).
      destruct st; split; reflexivity. }
  repeat split; try assumption.
  intros Hm. now rewrite Herr, messageOr_nonempty.
Qed.

Lemma caught_error_is_shown_witness :
  let st := step initialState (ClickStart (Thrown e404) (Thrown e404)) in
  State.error (step st (ClickChoice 1 (Thrown e500))) = "Internal Server Error".
Proof.
  intros st.
  destruct (caught_error_is_shown st (ClickChoice 1 (Thrown e500)) e500
              "Unable to submit answer" eq_refl) as (_ & H & _).
  apply H. discriminate.
Defined.

(** X2. The message of an error [apiRequest] throws for a non-2xx
    response is never empty, so the handlers show it as it is (the
    engine's message of a [TypeError] is not empty either). *)
Theorem apiRequest_message_nonempty (Number_toString : Q -> string)
    (JSON_parse : string -> option value) (toPrimitiveMessage : string)
    (resp : response) (e : error) :
  toPrimitiveMessage <> "" ->
  apiRequest Number_toString JSON_parse toPrimitiveMessage resp = Thrown e ->
  message e <> "".
Proof.
  intros Hte. unfold apiRequest. destruct (negb (ok resp)); [|discriminate].
  destruct (toErrorMessage Number_toString (parseJsonSafe JSON_parse resp))
    as [m|]; intros [= <-]; cbn [message]; [|exact Hte].
  destruct (String.eqb_spec m ""); [discriminate|assumption].
Qed.

Lemma apiRequest_message_nonempty_witness :
  exists e,
    apiRequest printExample parseExample cannotConvert
      (Response false 500 emptyDetailBody) = Thrown e /\
    message e <> "".
Proof.
  eexists. split; [reflexivity|].
  apply (apiRequest_message_nonempty printExample parseExample cannotConvert
           (Response false 500 emptyDetailBody)).
  - discriminate.
  - reflexivity.
Defined.

(** X3. A start whose two calls are answered by the mock provider shows
    the first mock question as question 1 of 3 with score 0, nothing
    selected and no feedback. *)
Theorem mock_start_state (st : State.t) (startReply : outcome unit)
    (questionReply : outcome QuestionReply.t) :
  mockServed (ClickStart startReply questionReply) = true ->
  let st' := step st (ClickStart startReply questionReply) in
  State.question st' = Some (questionOf (mockGetQuestion 1)) /\
  showsMockQuestion 1 (mockGetQuestion 1) /\
  State.questionNumber st' = 1 /\
  State.totalQuestions st' = MOCK_LENGTH /\
  State.score st' = 0 /\
  State.selectedIndex st' = None /\
  State.answerResult st' = None /\
  State.gameOver st' = false /\
  State.gameStarted st' = true /\
  State.error st' = "" /\
  State.usingMockBackend st' = true.
Proof.
  simpl. rewrite andb_true_iff. intros [Hs Hq].
  unfold step, handler.
  rewrite (handleStartGame_answered _ _ _ (mockGetQuestion 1))
    by (rewrite ?Hs, ?orb_true_r; auto using missingEndpoint_answered).
  unfold startCalls. rewrite Hs, (missingEndpoint_fallbackCalls _ Hq).
  destruct st; repeat split.
  apply (mockGetQuestion_position 1).
Qed.

Lemma mock_start_state_witness :
  State.questionNumber
    (step initialState (ClickStart (Thrown e404) (Thrown e404))) = 1 /\
  State.score
    (step initialState (ClickStart (Thrown e404) (Thrown e404))) = 0.
Proof.
  pose proof (mock_start_state initialState (Thrown e404) (Thrown e404) eq_refl)
    as (_ & _ & Hn & _ & Hs & _).
  split; [exact Hn|exact Hs].
Defined.

(* ================================================================== *)
(** * Part II: the rest of the controller, the API surface and the admin
      panel *)
(* ================================================================== *)

(* ================================================================== *)
(** ** States a session can reach, whatever the backend replies *)
(* ================================================================== *)

(** What every state between two user actions satisfies: no request is
    in flight; the game is started exactly when a question is shown; a
    choice is locked exactly when its feedback is there; the score, total
    and game-over flag are those of the feedback; the question shown has
    an id and a prompt. *)
Definition wellFormed (st : State.t) : Prop :=
  State.loading st = false /\
  State.gameStarted st = negb (isNull (State.question st)) /\
  isNull (State.selectedIndex st) = isNull (State.answerResult st) /\
  (isNull (State.question st) = true ->
   isNull (State.selectedIndex st) = true) /\
  match State.answerResult st with
  | Some r =>
      State.score st = AnswerResult.score r /\
      State.totalQuestions st = AnswerResult.totalQuestions r /\
      State.gameOver st = AnswerResult.gameOver r
  | None => State.gameOver st = false
  end /\
  match State.question st with
  | Some q => Question.id q <> "" /\ Question.prompt q <> ""
  | None => True
  end.

Lemma orStr_nonempty (a : option string) (b : string) :
  b <> "" -> orStr a b <> "".
Proof.
  intros Hb. unfold orStr. destruct a as [s|]; [|exact Hb].
  destruct (String.eqb_spec s ""); assumption.
Qed.

Lemma questionOf_nonempty (q : QuestionReply.t) :
  Question.id (questionOf q) <> "" /\ Question.prompt (questionOf q) <> "".
Proof.
  unfold questionOf; cbn [Question.id Question.prompt].
  split; repeat apply orStr_nonempty; discriminate.
Qed.

Lemma wellFormed_initial : wellFormed initialState.
Proof. repeat split. Qed.

Ltac wf_finish :=
  unfold wellFormed; cbn;
  repeat match goal with
         | |- _ /\ _ => split
         end;
  try reflexivity; try assumption; try discriminate; try tauto;
  try apply questionOf_nonempty.

Lemma handleNext_guard (st : State.t) :
  ((State.answerResult st = None \/ State.loading st = true) /\
   forall reply, handleNext reply st = ret tt) \/
  (exists answerResult,
     State.answerResult st = Some answerResult /\
     State.loading st = false /\
     AnswerResult.gameOver answerResult = true /\
     forall reply, handleNext reply st = emit (SetGameOver true)) \/
  (exists answerResult,
     State.answerResult st = Some answerResult /\
     State.loading st = false /\
     AnswerResult.gameOver answerResult = false).
Proof.
  unfold handleNext. destruct (State.answerResult st) as [r|]; [|left; auto].
  destruct (State.loading st); [left; auto|].
  destruct (AnswerResult.gameOver r) eqn:Hgo.
  - right; left. exists r. auto.
  - right; right. now exists r.
Qed.

(** The runs of [handleNext reply st], each with what the guard saw. *)
Ltac next_runs st reply :=
  let H := fresh "H" in
  let Hg := fresh "Hg" in
  let Har := fresh "Har" in
  let Hld := fresh "Hld" in
  let Hgo := fresh "Hgo" in
  let Hans := fresh "Hans" in
  let He := fresh "He" in
  let a := fresh "a" in
  let r := fresh "r" in
  let e := fresh "e" in
  destruct (handleNext_guard st)
    as [[Hg H]|[(a & Har & Hld & Hgo & H)|(a & Har & Hld & Hgo)]];
  [ rewrite !H | rewrite !H |
    destruct (answered reply (mockGetQuestion (State.questionNumber st + 1)))
      as [r|] eqn:Hans;
    [ rewrite (handleNext_answered _ _ a r Har Hld Hgo Hans)
    | destruct (answered_none _ _ Hans) as (e & -> & He);
      rewrite (handleNext_failed _ _ a Har Hld Hgo He) ] ].

Lemma wellFormed_step (st : State.t) (ev : event) :
  wellFormed st -> wellFormed (step st ev).
Proof.
  intros (Hld & Hgs & Hsel & Hq & Har & Hid).
  destruct ev as [sr qr|idx reply|reply|]; unfold step, handler.
  - start_cases st sr qr; split_fallbacks;
      destruct st as [gs q sel ar sc qn tn go ld er um]; cbn in *; subst;
      wf_finish.
  - choice_cases st idx reply; split_fallbacks;
      destruct st as [gs q0 sel ar sc qn tn go ld er um];
      unfold selectable in *; cbn in *;
      try (destruct q0; [|discriminate]);
      try (destruct sel; [rewrite andb_false_r in *; discriminate|]);
      try (destruct ar; [discriminate|]); subst;
      wf_finish.
  - next_runs st reply; split_fallbacks;
      destruct st as [gs q0 sel ar sc qn tn go ld er um]; cbn in *; subst.
    all: try match goal with H : Some _ = Some _ |- _ => injection H as -> end.
    all: try (destruct sel; [|discriminate]).
    all: try (destruct q0; [|now specialize (Hq eq_refl)]).
    all: wf_finish.
    all: try (destruct Har as (? & ? & ?); congruence).
  - destruct st as [gs q0 sel ar sc qn tn go ld er um]; cbn in *; subst.
    wf_finish.
Qed.

Lemma wellFormed_session (evs : list event) (st : State.t) :
  wellFormed st -> wellFormed (session evs st).
Proof.
  revert st; induction evs as [|ev evs IH]; intros st Hst; [exact Hst|].
  apply IH. now apply wellFormed_step.
Qed.

Lemma wellFormed_finished (st : State.t) :
  wellFormed st -> State.gameOver st = true ->
  (forall reply, handleNext reply st = emit (SetGameOver true)) /\
  selectable st = false.
Proof.
  intros (Hld & _ & _ & _ & Har & _) Hgo. split.
  - destruct (handleNext_guard st)
      as [[[Hn|Hl] _]|[(a & _ & _ & _ & H)|(a & Ha & _ & Hf)]].
    + rewrite Hn in Har. congruence.
    + congruence.
    + exact H.
    + rewrite Ha in Har. destruct Har as (_ & _ & Hg). congruence.
  - unfold selectable. rewrite Hgo. cbn. apply andb_false_r.
Qed.

(** X4. Whatever the backend replies, once the handler of an action has
    run to its end no request is in flight, and the state has one of
    three shapes: no game (nothing shown, selected or graded); a question
    shown with nothing selected and no feedback, the game not over; or a
    question shown with a selection and its feedback. [handleSelectAnswer]
    accepts a choice in the second shape only. *)
Theorem settled_state_shapes (evs : list event) :
  let st := session evs initialState in
  let noGame :=
    State.gameStarted st = false /\ State.question st = None /\
    State.selectedIndex st = None /\ State.answerResult st = None /\
    State.gameOver st = false in
  let asking :=
    State.gameStarted st = true /\ State.question st <> None /\
    State.selectedIndex st = None /\ State.answerResult st = None /\
    State.gameOver st = false in
  let graded :=
    State.gameStarted st = true /\ State.question st <> None /\
    State.selectedIndex st <> None /\ State.answerResult st <> None in
  State.loading st = false /\
  (noGame \/ asking \/ graded) /\
  (selectable st = true <-> asking).
Proof.
  pose proof (wellFormed_session evs _ wellFormed_initial)
    as (Hld & Hgs & Hsel & Hq & Har & _).
  cbn zeta. destruct (session evs initialState)
    as [gs q sel ar sc qn tn go ld er um].
  unfold selectable; cbn in *; subst.
  split; [reflexivity|].
  destruct q as [q|], sel as [i|], ar as [r|]; cbn in *;
    try discriminate; try (specialize (Hq eq_refl); discriminate); subst.
  - split; [right; right; repeat split; discriminate|].
    split; [discriminate|]. intros (_ & _ & H & _). discriminate H.
  - split; [right; left; repeat split; discriminate|].
    split; [intros _; repeat split; discriminate|reflexivity].
  - split; [left; repeat split|].
    split; [discriminate|]. intros (H & _). discriminate H.
Qed.

(** X5. Once the handler of an action has run to its end, the header
    agrees with the feedback held: the score, the total and the game-over
    flag of the state are those of the answer result, and a choice is
    locked; and a locked choice has its feedback. (While a submission is
    in flight the choice is locked before its feedback arrives; those
    states lie inside a handler's run and are not meant here.) *)
Theorem feedback_matches_header (evs : list event) :
  let st := session evs initialState in
  (forall r,
     State.answerResult st = Some r ->
     State.score st = AnswerResult.score r /\
     State.totalQuestions st = AnswerResult.totalQuestions r /\
     State.gameOver st = AnswerResult.gameOver r /\
     State.selectedIndex st <> None) /\
  (State.selectedIndex st <> None -> State.answerResult st <> None) /\
  (State.answerResult st = None -> State.gameOver st = false).
Proof.
  pose proof (wellFormed_session evs _ wellFormed_initial)
    as (_ & _ & Hsel & _ & Har & _).
  cbn zeta. destruct (State.answerResult (session evs initialState)) as [r|].
  - split; [|split; [discriminate|discriminate]].
    intros r' [= <-]. destruct Har as (H1 & H2 & H3).
    repeat split; try assumption.
    destruct (State.selectedIndex (session evs initialState));
      [discriminate|discriminate Hsel].
  - split; [discriminate|]. split; [|intros _; exact Har].
    destruct (State.selectedIndex (session evs initialState));
      [discriminate Hsel|]. now intros H.
Qed.

(** X6. Once the game is over, clicks on next (the finish button) and on
    a choice change nothing, whatever the backend would reply: only start
    and restart lead on. *)
Theorem finished_game_is_final (evs : list event) :
  let st := session evs initialState in
  State.gameOver st = true ->
  (forall reply, step st (ClickNext reply) = st) /\
  (forall idx reply, step st (ClickChoice idx reply) = st).
Proof.
  intros st Hgo.
  pose proof (wellFormed_session evs _ wellFormed_initial) as Hwf.
  destruct (wellFormed_finished _ Hwf Hgo) as [Hn Hs]. fold st in Hn, Hs.
  split.
  - intros reply. unfold step, handler. rewrite Hn.
    destruct st; cbn in *; subst; reflexivity.
  - intros idx reply. unfold step, handler.
    now rewrite (handleSelectAnswer_ignored _ _ _ Hs).
Qed.

Lemma finished_game_is_final_witness :
  let st :=
    session [ClickStart (Thrown e404) (Thrown e404);
             ClickChoice 0 (Thrown e404); ClickNext (Thrown e404);
             ClickChoice 0 (Thrown e404); ClickNext (Thrown e404);
             ClickChoice 0 (Thrown e404)] initialState in
  State.gameOver st = true /\
  step st (ClickNext (Returned backendQuestion4)) = st /\
  step st (ClickChoice 2 (Returned backendAnswer42)) = st.
Proof.
  intros st.
  pose proof (finished_game_is_final
                [ClickStart (Thrown e404) (Thrown e404);
                 ClickChoice 0 (Thrown e404); ClickNext (Thrown e404);
                 ClickChoice 0 (Thrown e404); ClickNext (Thrown e404);
                 ClickChoice 0 (Thrown e404)] eq_refl) as [Hn Hc].
  split; [reflexivity|]. split; [apply Hn|apply Hc].
Defined.

(** X7. The game counts as started exactly when a question is shown, so
    the placeholder for a started game without a question is never
    rendered; and the question shown always has a non-empty id and
    prompt, whatever spellings the backend used or left out. *)
Theorem question_shown_is_identified (evs : list event) :
  let st := session evs initialState in
  (State.gameStarted st = true <-> State.question st <> None) /\
  (forall q, State.question st = Some q ->
             Question.id q <> "" /\ Question.prompt q <> "").
Proof.
  pose proof (wellFormed_session evs _ wellFormed_initial)
    as (_ & Hgs & _ & _ & _ & Hid).
  cbn zeta. rewrite Hgs. split.
  - destruct (State.question (session evs initialState));
      cbn; split; congruence.
  - intros q Hq. now rewrite Hq in Hid.
Qed.

(** X8. Restart keeps the score, the question number and the total (the
    header goes on showing them) and removes the question; until the next
    start, clicks on a choice or on next do nothing. *)
Theorem restart_keeps_score (st : State.t) :
  let st' := step st ClickRestart in
  State.score st' = State.score st /\
  State.questionNumber st' = State.questionNumber st /\
  State.totalQuestions st' = State.totalQuestions st /\
  State.question st' = None /\
  State.gameStarted st' = false /\
  (forall idx reply, step st' (ClickChoice idx reply) = st') /\
  (forall reply, step st' (ClickNext reply) = st').
Proof.
  destruct st as [gs q sel ar sc qn tn go ld er um]. repeat split.
Qed.

(* ================================================================== *)
(** ** Mock mode is entered only through the fallback *)
(* ================================================================== *)

(** Some real call of the event fails as a missing endpoint. *)
Definition fallsBack (ev : event) : bool :=
  match ev with
  | ClickStart startReply questionReply =>
      missingEndpoint startReply || missingEndpoint questionReply
  | ClickChoice _ reply => missingEndpoint reply
  | ClickNext reply => missingEndpoint reply
  | ClickRestart => false
  end.

Definition touchesMockFlag (c : setter) : bool :=
  match c with
  | SetUsingMockBackend _ => true
  | _ => false
  end.

Lemma handler_leaves_flag (st : State.t) (ev : event) :
  fallsBack ev = false ->
  existsb touchesMockFlag (calls (handler ev st)) = false.
Proof.
  destruct ev as [sr qr|idx reply|reply|]; unfold handler; simpl; intros Hf.
  - apply orb_false_iff in Hf as [Hs Hq].
    start_cases st sr qr; unfold fallbackCalls, startCalls;
      simpl in *; rewrite ?Hs, ?Hq; try reflexivity; congruence.
  - choice_cases st idx reply; unfold fallbackCalls;
      simpl in *; rewrite ?Hf; try reflexivity; congruence.
  - next_cases st reply; unfold fallbackCalls;
      simpl in *; rewrite ?Hf; try reflexivity; congruence.
  - reflexivity.
Qed.

Lemma replay_leaves_flag (l : list setter) (st : State.t) :
  existsb touchesMockFlag l = false ->
  State.usingMockBackend (replay l st) = State.usingMockBackend st.
Proof.
  revert st; induction l as [|c l IH]; intros st Hl; [reflexivity|].
  simpl in Hl. apply orb_false_iff in Hl as [Hc Hl].
  unfold replay in *; cbn [fold_left]. rewrite (IH _ Hl).
  destruct st, c; try reflexivity; discriminate Hc.
Qed.

(** X9. The mock-mode flag changes only in an action one of whose real
    calls fails as a missing endpoint: while the backend answers, or
    fails in any other way, the flag stays as it was, and in a session
    from the initial state the banner is not shown. *)
Theorem mock_flag_needs_fallback (evs : list event) (st : State.t) :
  existsb fallsBack evs = false ->
  State.usingMockBackend (session evs st) = State.usingMockBackend st.
Proof.
  revert st; induction evs as [|ev evs IH]; intros st Hf; [reflexivity|].
  simpl in Hf. apply orb_false_iff in Hf as [Hev Hf].
  unfold session in *; cbn [fold_left]. rewrite (IH _ Hf).
  apply replay_leaves_flag. now apply handler_leaves_flag.
Qed.

Lemma mock_flag_needs_fallback_witness :
  State.usingMockBackend
    (session [ClickStart (Returned tt) (Returned backendQuestion4);
              ClickChoice 1 (Thrown e500);
              ClickChoice 1 (Returned backendAnswer42);
              ClickNext (Thrown e500)] initialState) = false.
Proof.
  apply (mock_flag_needs_fallback
           [ClickStart (Returned tt) (Returned backendQuestion4);
            ClickChoice 1 (Thrown e500);
            ClickChoice 1 (Returned backendAnswer42);
            ClickNext (Thrown e500)] initialState).
  reflexivity.
Defined.

(* ================================================================== *)
(** ** More on the mock provider *)
(* ================================================================== *)

(** X10. An id that no mock question has is graded against the first mock
    question: the answer is correct exactly when index 0 was chosen, and
    the feedback shows the first question's correct index and
    explanation. *)
Theorem mockSubmitAnswer_unknown_id (st : State.t) (questionId : string)
    (selectedIdx : Z) :
  (forall q, In q MOCK_QUESTIONS -> MockQuestion.id q <> questionId) ->
  let r := mockSubmitAnswer st questionId selectedIdx in
  AnswerReply.correct r = Some (selectedIdx =? 0) /\
  AnswerReply.correctIndex r = Some 0 /\
  AnswerReply.explanation r = Some (MockQuestion.explanation q1) /\
  AnswerReply.score r =
    Some (State.score st + (if selectedIdx =? 0 then 1 else 0)).
Proof.
  intros Hid.
  assert (find (fun x => (MockQuestion.id x =? questionId)%string)
            MOCK_QUESTIONS = None) as Hfind.
  { unfold MOCK_QUESTIONS; cbn [find].
    rewrite (proj2 (String.eqb_neq _ _) (Hid q1 ltac:(simpl; tauto))).
    rewrite (proj2 (String.eqb_neq _ _) (Hid q2 ltac:(simpl; tauto))).
    rewrite (proj2 (String.eqb_neq _ _) (Hid q3 ltac:(simpl; tauto))).
    reflexivity. }
  unfold mockSubmitAnswer. rewrite Hfind. repeat split.
Qed.

Lemma mockSubmitAnswer_unknown_id_witness :
  AnswerReply.correct (mockSubmitAnswer initialState "b4" 1) = Some false /\
  AnswerReply.correctIndex (mockSubmitAnswer initialState "b4" 1) = Some 0.
Proof.
  assert (forall q, In q MOCK_QUESTIONS -> MockQuestion.id q <> "b4") as H.
  { intros q [<-|[<-|[<-|[]]]]; discriminate. }
  destruct (mockSubmitAnswer_unknown_id initialState "b4" 1 H)
    as (Hc & Hi & _).
  split; [exact Hc|exact Hi].
Defined.

Lemma mockGetQuestion_same_position (n p : Z) :
  QuestionReply.question_number (mockGetQuestion n) = Some p ->
  mockGetQuestion p = mockGetQuestion n.
Proof.
  intros H. pose proof (proj2 (mockGetQuestion_fields n)) as Hn.
  cbn zeta in Hn. rewrite Hn in H.
  assert (p = clamp ((if n =? 0 then 1 else n) - 1) 0 (MOCK_LENGTH - 1) + 1)
    as -> by congruence.
  clear H Hn. unfold mockGetQuestion.
  set (i := clamp ((if n =? 0 then 1 else n) - 1) 0 (MOCK_LENGTH - 1)).
  assert (0 <= i <= MOCK_LENGTH - 1) as Hi
    by (apply clamp_range; rewrite MOCK_LENGTH_eq; lia).
  destruct (Z.eqb_spec (i + 1) 0); [lia|].
  replace (clamp (i + 1 - 1) 0 (MOCK_LENGTH - 1)) with i
    by (unfold clamp; lia).
  reflexivity.
Qed.

(** X11. Fetching the mock question at the position a mock reply reports
    gives the same reply again: positions are stable under the clamp. *)
Theorem mockGetQuestion_refetch (n p : Z) :
  QuestionReply.question_number (mockGetQuestion n) = Some p ->
  mockGetQuestion p = mockGetQuestion n.
Proof. exact (mockGetQuestion_same_position n p). Qed.

Lemma mockGetQuestion_refetch_witness :
  mockGetQuestion 3 = mockGetQuestion 250.
Proof.
  apply (mockGetQuestion_refetch 250 3). reflexivity.
Defined.

(* ================================================================== *)
(** ** A game played against the mock provider *)
(* ================================================================== *)

(** The question on screen is the mock question of the current number. *)
Definition shownIsCurrent (st : State.t) : Prop :=
  forall q, State.question st = Some q ->
            q = questionOf (mockGetQuestion (State.questionNumber st)).

(** The event with every reply replaced by a plain 404. *)
Definition as404 (ev : event) : event :=
  match ev with
  | ClickStart _ _ => ClickStart (Thrown e404) (Thrown e404)
  | ClickChoice idx _ => ClickChoice idx (Thrown e404)
  | ClickNext _ => ClickNext (Thrown e404)
  | ClickRestart => ClickRestart
  end.

(** One point for a matching index. *)
Definition point (chosen correct : Z) : Z :=
  if chosen =? correct then 1 else 0.

Lemma handler_as404 (st : State.t) (ev : event) :
  mockServed ev = true -> handler ev st = handler (as404 ev) st.
Proof.
  intros Hm. destruct ev as [sr qr|idx reply|reply|];
    unfold handler, as404; simpl in Hm.
  - apply andb_true_iff in Hm as [Hs Hq].
    rewrite (handleStartGame_answered sr qr st (mockGetQuestion 1))
      by (rewrite ?Hs, ?orb_true_r; auto using missingEndpoint_answered).
    rewrite (handleStartGame_answered (Thrown e404) (Thrown e404) st
               (mockGetQuestion 1)) by reflexivity.
    unfold startCalls, fallbackCalls. now rewrite Hs, Hq.
  - destruct (selectable st) eqn:Hsel.
    + destruct (selectable_question _ Hsel) as [q Hq].
      rewrite (handleSelectAnswer_answered idx reply st q
                 (mockSubmitAnswer st (Question.id q) idx))
        by auto using missingEndpoint_answered.
      rewrite (handleSelectAnswer_answered idx (Thrown e404) st q
                 (mockSubmitAnswer st (Question.id q) idx)) by auto.
      unfold fallbackCalls. now rewrite Hm.
    + now rewrite !(handleSelectAnswer_ignored _ _ _ Hsel).
  - destruct (handleNext_cases st) as [H|[H|(a & Har & Hld & Hgo)]].
    + now rewrite !H.
    + now rewrite !H.
    + rewrite (handleNext_answered reply st a
                 (mockGetQuestion (State.questionNumber st + 1)))
        by auto using missingEndpoint_answered.
      rewrite (handleNext_answered (Thrown e404) st a
                 (mockGetQuestion (State.questionNumber st + 1))) by auto.
      unfold fallbackCalls. now rewrite Hm.
  - reflexivity.
Qed.

Lemma session_as404 (evs : list event) (st : State.t) :
  forallb mockServed evs = true ->
  session evs st = session (map as404 evs) st.
Proof.
  revert st; induction evs as [|ev evs IH]; intros st Hm; [reflexivity|].
  simpl in Hm. apply andb_true_iff in Hm as [Hev Hm].
  unfold session in *; cbn [fold_left map].
  unfold step at 2 4. rewrite (handler_as404 st ev Hev). now apply IH.
Qed.

Lemma shownIsCurrent_step (st : State.t) (ev : event) :
  mockServed ev = true ->
  scoreInv st -> shownIsCurrent st -> shownIsCurrent (step st ev).
Proof.
  intros Hm Hinv Hshown. unfold step. rewrite (handler_as404 _ _ Hm).
  destruct ev as [sr qr|idx reply|reply|]; unfold as404, handler.
  - rewrite (handleStartGame_answered (Thrown e404) (Thrown e404) st
               (mockGetQuestion 1)) by reflexivity.
    destruct st; intros q; cbn. now intros [= <-].
  - choice_cases st idx (@Thrown AnswerReply.t e404);
      try discriminate; try exact Hshown.
    destruct st; intros q' Hq'; cbn in *. now apply Hshown.
  - destruct (handleNext_guard st)
      as [[_ H]|[(a & _ & _ & _ & H)|(a & Har & Hld & Hgo)]];
      rewrite ?H.
    + exact Hshown.
    + destruct st; intros q' Hq'; cbn in *. now apply Hshown.
    + rewrite (handleNext_answered (Thrown e404) st a
                 (mockGetQuestion (State.questionNumber st + 1)))
        by auto.
      destruct Hinv as (_ & _ & _ & _ & _).
      pose proof (mockGetQuestion_fields (State.questionNumber st + 1))
        as [_ Hn]. cbn zeta in Hn.
      pose proof (mockGetQuestion_same_position _ _ Hn) as Hsame.
      rewrite (missingEndpoint_fallbackCalls (@Thrown QuestionReply.t e404)
                 eq_refl).
      destruct st as [gs q0 sel ar sc qn tn go ld er um];
        intros q'; cbn in *.
      intros [= <-]. rewrite Hn. cbn [nullish nullishOpt].
      now rewrite Hsame.
  - destruct st; intros q'; cbn. discriminate.
Qed.

Lemma shownIsCurrent_session (evs : list event) (st : State.t) :
  forallb mockServed evs = true ->
  scoreInv st -> shownIsCurrent st ->
  scoreInv (session evs st) /\ shownIsCurrent (session evs st).
Proof.
  revert st; induction evs as [|ev evs IH]; intros st Hm Hinv Hshown;
    [now split|].
  simpl in Hm. apply andb_true_iff in Hm as [Hev Hm].
  apply IH; [exact Hm|now apply scoreInv_step|now apply shownIsCurrent_step].
Qed.

Lemma fresh_mock_start (st0 : State.t) (sr : outcome unit)
    (qr : outcome QuestionReply.t) :
  mockServed (ClickStart sr qr) = true ->
  scoreInv (step st0 (ClickStart sr qr)) /\
  shownIsCurrent (step st0 (ClickStart sr qr)).
Proof.
  intros Hm. split; [now apply scoreInv_start|].
  unfold step. rewrite (handler_as404 _ _ Hm). unfold as404, handler.
  rewrite (handleStartGame_answered (Thrown e404) (Thrown e404) st0
             (mockGetQuestion 1)) by reflexivity.
  destruct st0; intros q; cbn. now intros [= <-].
Qed.

(** X12. In a game served by the mock provider the question on screen is
    the mock question of the current number, and a choice is graded
    against that question: the feedback is correct exactly when its
    correct index was chosen, shows its correct index and explanation,
    adds one point for a correct answer, and says the game is over
    exactly on the last question. *)
Theorem mock_grades_question_shown (st0 : State.t) (sr : outcome unit)
    (qr : outcome QuestionReply.t) (evs : list event) (idx : Z)
    (reply : outcome AnswerReply.t) :
  mockServed (ClickStart sr qr) = true ->
  forallb mockServed evs = true ->
  missingEndpoint reply = true ->
  let st := session evs (step st0 (ClickStart sr qr)) in
  selectable st = true ->
  exists q,
    nth_error MOCK_QUESTIONS (Z.to_nat (State.questionNumber st - 1)) = Some q /\
    State.question st =
      Some (Question.Make (MockQuestion.id q) (MockQuestion.prompt q)
              (MockQuestion.choices q)) /\
    State.answerResult (step st (ClickChoice idx reply)) =
      Some {| AnswerResult.correct := idx =? MockQuestion.correctIndex q;
              AnswerResult.correctIndex := MockQuestion.correctIndex q;
              AnswerResult.explanation := MockQuestion.explanation q;
              AnswerResult.score :=
                State.score st + point idx (MockQuestion.correctIndex q);
              AnswerResult.questionNumber := State.questionNumber st;
              AnswerResult.totalQuestions := MOCK_LENGTH;
              AnswerResult.gameOver :=
                State.questionNumber st =? MOCK_LENGTH |}.
Proof.
  intros Hstart Hevs Hr st Hsel.
  destruct (fresh_mock_start st0 sr qr Hstart) as [Hinv0 Hshown0].
  destruct (shownIsCurrent_session evs _ Hevs Hinv0 Hshown0)
    as [Hinv Hshown]. fold st in Hinv, Hshown.
  destruct (selectable_question _ Hsel) as [q0 Hq0].
  pose proof (Hshown q0 Hq0) as Hq.
  destruct Hinv as (_ & Hs & Hn & Hlt & _). specialize (Hlt Hsel).
  rewrite MOCK_LENGTH_eq in Hn.
  assert (State.questionNumber st = 1 \/ State.questionNumber st = 2 \/
          State.questionNumber st = 3) as Hqn by lia.
  assert (step st (ClickChoice idx reply) =
          step st (ClickChoice idx (Thrown e404))) as ->
    by (unfold step; now rewrite (handler_as404 st (ClickChoice idx reply) Hr)).
  unfold step, handler.
  rewrite (handleSelectAnswer_answered idx (Thrown e404) st q0
             (mockSubmitAnswer st (Question.id q0) idx) Hq0 Hsel eq_refl).
  rewrite (missingEndpoint_fallbackCalls (@Thrown AnswerReply.t e404) eq_refl).
  clearbody st. clear - Hq0 Hq Hqn.
  destruct st as [gs q sel ar sc qn tn go ld er um]; cbn in *; subst.
  destruct Hqn as [->|[->| ->]];
    [exists q1|exists q2|exists q3]; repeat split.
Qed.

Lemma mock_grades_question_shown_witness :
  let st :=
    session [ClickChoice 3 (Thrown e404); ClickNext (Thrown e404)]
      (step initialState (ClickStart (Thrown e404) (Thrown e404))) in
  State.question st =
    Some (Question.Make (MockQuestion.id q2) (MockQuestion.prompt q2)
            (MockQuestion.choices q2)) /\
  option_map AnswerResult.correct
    (State.answerResult (step st (ClickChoice 1 (Thrown e404)))) = Some true.
Proof.
  intros st.
  destruct (mock_grades_question_shown initialState (Thrown e404)
              (Thrown e404)
              [ClickChoice 3 (Thrown e404); ClickNext (Thrown e404)]
              1 (Thrown e404) eq_refl eq_refl eq_refl eq_refl)
    as (q & Hq & Hshown & Hans).
  fold st in Hq, Hshown, Hans.
  vm_compute in Hq. injection Hq as <-.
  split; [exact Hshown|]. rewrite Hans. reflexivity.
Defined.

(** The state while mock question [q] is asked as number [n], and after
    index [idx] was chosen for it. *)
Definition shown (q : MockQuestion.t) : option Question.t :=
  Some (Question.Make (MockQuestion.id q) (MockQuestion.prompt q)
          (MockQuestion.choices q)).

Definition asked (q : MockQuestion.t) (n score : Z) : State.t :=
  State.Make true (shown q) None None score n 3 false false "" true.

Definition graded (q : MockQuestion.t) (n score idx : Z) : State.t :=
  let s := score + point idx (MockQuestion.correctIndex q) in
  State.Make true (shown q) (Some idx)
    (Some (AnswerResult.Make (idx =? MockQuestion.correctIndex q)
             (MockQuestion.correctIndex q) (MockQuestion.explanation q)
             s n 3 (n >=? 3)))
    s n 3 (n >=? 3) false "" true.

Lemma mock_start_asks_first (st0 : State.t) :
  step st0 (ClickStart (Thrown e404) (Thrown e404)) = asked q1 1 0.
Proof. destruct st0; reflexivity. Qed.

Lemma mock_choice_first (score idx : Z) :
  step (asked q1 1 score) (ClickChoice idx (Thrown e404)) =
  graded q1 1 score idx.
Proof. reflexivity. Qed.

Lemma mock_next_second (score idx : Z) :
  step (graded q1 1 score idx) (ClickNext (Thrown e404)) =
  asked q2 2 (score + point idx 0).
Proof. reflexivity. Qed.

Lemma mock_choice_second (score idx : Z) :
  step (asked q2 2 score) (ClickChoice idx (Thrown e404)) =
  graded q2 2 score idx.
Proof. reflexivity. Qed.

Lemma mock_next_third (score idx : Z) :
  step (graded q2 2 score idx) (ClickNext (Thrown e404)) =
  asked q3 3 (score + point idx 1).
Proof. reflexivity. Qed.

Lemma mock_choice_third (score idx : Z) :
  step (asked q3 3 score) (ClickChoice idx (Thrown e404)) =
  graded q3 3 score idx.
Proof. reflexivity. Qed.

(** X13. A whole game against the mock provider: after start and three
    choices with next in between, whatever missing-endpoint errors the
    real calls fail with, the score is the number of choices that were
    0, 1 and 2 in that order, the game is over at question 3 of 3, and
    further choices are ignored. *)
Theorem mock_full_game (st0 : State.t) (r0 : outcome unit)
    (r1 r3 r5 : outcome QuestionReply.t) (r2 r4 r6 : outcome AnswerReply.t)
    (i1 i2 i3 : Z) :
  let game :=
    [ClickStart r0 r1; ClickChoice i1 r2; ClickNext r3; ClickChoice i2 r4;
     ClickNext r5; ClickChoice i3 r6] in
  forallb mockServed game = true ->
  let st := session game st0 in
  State.score st = point i1 0 + point i2 1 + point i3 2 /\
  State.questionNumber st = 3 /\
  State.totalQuestions st = 3 /\
  State.gameOver st = true /\
  selectable st = false.
Proof.
  intros game Hm st. unfold st. rewrite (session_as404 game st0 Hm).
  unfold game, session; cbn [map as404 fold_left].
  rewrite mock_start_asks_first, mock_choice_first, mock_next_second,
    mock_choice_second, mock_next_third, mock_choice_third.
  unfold graded, selectable; cbn. repeat split.
Qed.

Lemma mock_full_game_witness :
  State.score
    (session [ClickStart (Thrown e404) (Thrown e404);
              ClickChoice 0 (Thrown e404); ClickNext (Thrown e404);
              ClickChoice 3 (Thrown e404); ClickNext (Thrown e404);
              ClickChoice 2 (Thrown e404)] initialState) = 2.
Proof.
  exact (proj1 (mock_full_game initialState (Thrown e404) (Thrown e404)
                  (Thrown e404) (Thrown e404) (Thrown e404) (Thrown e404)
                  (Thrown e404) 0 3 2 eq_refl)).
Defined.

(* ================================================================== *)
(** ** Values the play view derives from the state *)
(* ================================================================== *)

(** The [statusText] of [App]. *)
Definition statusText (st : State.t) : string :=
  if State.gameOver st then "GAME OVER"
  else if State.gameStarted st then
    if negb (isNull (State.answerResult st)) then "RESULT" else "PLAYING"
  else "READY".

(** [indexToLetter]: the UTF-16 code unit of the one-character label,
    [String.fromCharCode] reducing its argument modulo 2^16. *)
Definition indexToLetter (i : Z) : Z := (65 + i) mod 65536.

(** X14. Once the handler of an action has run to its end, the status
    pill follows the state: READY exactly when no game is started (no
    question is held); PLAYING exactly when [handleSelectAnswer] would
    accept a choice; RESULT or GAME OVER exactly when feedback is held,
    and GAME OVER exactly when that feedback says the game is over. *)
Theorem statusText_follows_state (evs : list event) :
  let st := session evs initialState in
  (statusText st = "READY" <-> State.question st = None) /\
  (statusText st = "PLAYING" <-> selectable st = true) /\
  (statusText st = "RESULT" \/ statusText st = "GAME OVER" <->
   State.answerResult st <> None) /\
  (statusText st = "GAME OVER" <->
   option_map AnswerResult.gameOver (State.answerResult st) = Some true).
Proof.
  pose proof (wellFormed_session evs _ wellFormed_initial)
    as (Hld & Hgs & Hsel & Hq & Har & _).
  cbn zeta. destruct (session evs initialState)
    as [gs q sel ar sc qn tn go ld er um].
  unfold statusText, selectable; cbn in *; subst.
  destruct q as [q|], sel as [i|], ar as [r|]; cbn in *;
    try discriminate; try (specialize (Hq eq_refl); discriminate).
  - destruct Har as (_ & _ & ->).
    destruct (AnswerResult.gameOver r); cbn.
    all: repeat split; try (intros [H|H]; discriminate H);
      try (intros H; discriminate H); try discriminate; auto.
  - subst. cbn.
    repeat split; try (intros [H|H]; discriminate H);
      try (intros H; discriminate H); try congruence; auto.
  - subst. cbn.
    repeat split; try (intros [H|H]; discriminate H);
      try (intros H; discriminate H); try congruence; auto.
Qed.

(** X15. [clamp] keeps a value that lies between the bounds, replaces a
    smaller one by the lower and a larger one by the upper bound, and is
    idempotent; with the bounds the wrong way round the lower bound
    wins. *)
Theorem clamp_laws (n lo hi : Z) :
  (lo <= n <= hi -> clamp n lo hi = n) /\
  (n < lo -> clamp n lo hi = lo) /\
  (lo <= hi -> hi < n -> clamp n lo hi = hi) /\
  (hi < lo -> clamp n lo hi = lo) /\
  lo <= clamp n lo hi /\
  clamp (clamp n lo hi) lo hi = clamp n lo hi.
Proof. unfold clamp. repeat split; lia. Qed.

(** X16. The labels of the first 26 choices are the capital letters A to
    Z in order, and two choices get the same label only when their
    indexes differ by a multiple of 65536. *)
Theorem indexToLetter_labels (i j : Z) :
  (0 <= i < 26 ->
   indexToLetter i = Z.of_N (N_of_ascii "A") + i /\
   indexToLetter i <= Z.of_N (N_of_ascii "Z")) /\
  (0 <= i < 65536 -> 0 <= j < 65536 ->
   indexToLetter i = indexToLetter j -> i = j) /\
  indexToLetter (i + 65536) = indexToLetter i.
Proof.
  unfold indexToLetter. change (Z.of_N (N_of_ascii "A")) with 65.
  change (Z.of_N (N_of_ascii "Z")) with 90.
  split; [|split].
  - intros Hi. rewrite Z.mod_small by lia. lia.
  - intros Hi Hj H.
    pose proof (Z.mod_pos_bound (65 + i) 65536 ltac:(lia)).
    pose proof (Z.mod_pos_bound (65 + j) 65536 ltac:(lia)).
    rewrite (Z.mod_eq (65 + i)), (Z.mod_eq (65 + j)) in * by lia.
    nia.
  - replace (65 + (i + 65536)) with (65 + i + 1 * 65536) by lia.
    apply Z.mod_add. lia.
Qed.

(* ================================================================== *)
(** ** [api/client.js]: the request [apiRequest] sends *)
(* ================================================================== *)

Module Http.

Import Js Client.

(** [s.replace(/\/$/, "")]: without a slash at its end [s] is returned as
    it is, otherwise that one slash is dropped. *)
Fixpoint stripTrailingSlash (s : string) : string :=
  match s with
  | EmptyString => EmptyString
  | String c s' =>
      if Ascii.eqb c "/" && (s' =? "")%string then EmptyString
      else String c (stripTrailingSlash s')
  end.

(** [getApiBaseUrl], as a function of the environment variable
    [REACT_APP_TRIVIA_API_BASE_URL] ([None] when it is not set). *)
Definition getApiBaseUrl (envUrl : option string) : string :=
  match envUrl with
  | Some u =>
      if negb (u =? "")%string && negb (trim u =? "")%string
      then stripTrailingSlash (trim u)
      else "/api"
  | None => "/api"
  end.

(** An object used as a record of headers: keys in insertion order. *)
Definition headers : Type := list (string * string).

Fixpoint get (key : string) (h : headers) : option string :=
  match h with
  | [] => None
  | (k, v) :: rest => if (k =? key)%string then Some v else get key rest
  end.

Fixpoint set (key value : string) (h : headers) : headers :=
  match h with
  | [] => [(key, value)]
  | (k, v) :: rest =>
      if (k =? key)%string then (k, value) :: rest
      else (k, v) :: set key value rest
  end.

(** [{...a, ...b}] *)
Definition spread (a b : headers) : headers :=
  fold_left (fun acc kv => set (fst kv) (snd kv) acc) b a.

(** The options of [apiRequest] the request depends on; [None] is
    [undefined]. *)
Record options : Type := Options {
  method : option string;
  body : option value;
  extraHeaders : option headers
}.

(** What [fetch] is called with. *)
Record request : Type := Request {
  url : string;
  req_method : string;
  req_headers : headers;
  req_body : option string
}.

Section Sending.

(** [JSON.stringify] on a value that is not [undefined]. *)
Variable JSON_stringify : value -> string.

Variable envUrl : option string.

Definition buildRequest (path : string) (o : options) : request :=
  let baseUrl := getApiBaseUrl envUrl in
  {| url := baseUrl ++ path;
     req_method := nullish (method o) "GET";
     req_headers :=
       spread
         (match body o with
          | Some b =>
              if truthy b then [("Content-Type", "application/json")] else []
          | None => []
          end)
         (nullish (extraHeaders o) []);
     req_body := option_map JSON_stringify (body o) |}.

End Sending.

End Http.

(* ================================================================== *)
(** ** [api/triviaApi.js]: the API surface *)
(* ================================================================== *)

Module TriviaApi.

Import Js Client Http.

(** Characters [encodeURIComponent] leaves as they are. *)
Definition unreserved (c : ascii) : bool :=
  let n := N_of_ascii c in
  (((65 <=? n) && (n <=? 90)) || ((97 <=? n) && (n <=? 122)) ||
   ((48 <=? n) && (n <=? 57)) ||
   (n =? 45) || (n =? 95) || (n =? 46) || (n =? 33) || (n =? 126) ||
   (n =? 42) || (n =? 39) || (n =? 40) || (n =? 41))%N.

Definition hexDigit (n : N) : ascii :=
  if (n <? 10)%N then ascii_of_N (48 + n) else ascii_of_N (55 + n).

(** [%XY] for the byte [n]. *)
Definition escapeByte (n : N) : string :=
  String "%" (String (hexDigit (n / 16)) (String (hexDigit (n mod 16))
    EmptyString)).

(** One character: kept, or the escaped bytes of its UTF-8 encoding (one
    byte below 128, two for the code units 128 to 255). *)
Definition encodeChar (c : ascii) : string :=
  let n := N_of_ascii c in
  if unreserved c then String c EmptyString
  else if (n <? 128)%N then escapeByte n
  else escapeByte (192 + n / 64) ++ escapeByte (128 + n mod 64).

Fixpoint encodeURIComponent (s : string) : string :=
  match s with
  | EmptyString => EmptyString
  | String c s' => encodeChar c ++ encodeURIComponent s'
  end.

(** A call of [apiRequest]: the path and the options the functions of
    the module pass. *)
Record call : Type := Call {
  path : string;
  opts : options
}.

Definition healthCheck : call :=
  Call "/" (Options (Some "GET") None None).

(** [startGame({ playerName } = {})] *)
Definition startGame (playerName : option string) : call :=
  Call "/game/start"
    (Options (Some "POST")
       (Some (Obj [("player_name", Str (orStr playerName "Player 1"))]))
       None).

Definition getCurrentQuestion : call :=
  Call "/game/question" (Options (Some "GET") None None).

Definition submitAnswer (questionId : string) (selectedIndex : Z) : call :=
  Call "/game/answer"
    (Options (Some "POST")
       (Some (Obj [("question_id", Str questionId);
                   ("selected_index", Num (inject_Z selectedIndex))]))
       None).

Definition adminListQuestions : call :=
  Call "/admin/questions" (Options (Some "GET") None None).

(** The body of create and update: [explanation] may be [undefined]. *)
Definition questionBody (p : AdminCreateForm.Payload.t) : value :=
  Obj [("prompt", Str (AdminCreateForm.Payload.prompt p));
       ("choices", Arr (map Str (AdminCreateForm.Payload.choices p)));
       ("correct_index", Num (AdminCreateForm.Payload.correctIndex p));
       ("explanation",
        match AdminCreateForm.Payload.explanation p with
        | Some s => Str s
        | None => Undefined
        end)].

Definition adminCreateQuestion (p : AdminCreateForm.Payload.t) : call :=
  Call "/admin/questions" (Options (Some "POST") (Some (questionBody p)) None).

Definition adminUpdateQuestion (id : string) (p : AdminCreateForm.Payload.t)
    : call :=
  Call ("/admin/questions/" ++ encodeURIComponent id)
    (Options (Some "PUT") (Some (questionBody p)) None).

Definition adminDeleteQuestion (id : string) : call :=
  Call ("/admin/questions/" ++ encodeURIComponent id)
    (Options (Some "DELETE") None None).

(** The operations of the module with their arguments. *)
Inductive operation : Type :=
| HealthCheck
| StartGame (playerName : option string)
| GetCurrentQuestion
| SubmitAnswer (questionId : string) (selectedIndex : Z)
| AdminListQuestions
| AdminCreateQuestion (p : AdminCreateForm.Payload.t)
| AdminUpdateQuestion (id : string) (p : AdminCreateForm.Payload.t)
| AdminDeleteQuestion (id : string).

Definition callOf (op : operation) : call :=
  match op with
  | HealthCheck => healthCheck
  | StartGame playerName => startGame playerName
  | GetCurrentQuestion => getCurrentQuestion
  | SubmitAnswer questionId selectedIndex => submitAnswer questionId selectedIndex
  | AdminListQuestions => adminListQuestions
  | AdminCreateQuestion p => adminCreateQuestion p
  | AdminUpdateQuestion id p => adminUpdateQuestion id p
  | AdminDeleteQuestion id => adminDeleteQuestion id
  end.

End TriviaApi.

(* ================================================================== *)
(** ** Properties of the request *)
(* ================================================================== *)

Section Requests.

Import Http TriviaApi.

Lemma stripTrailingSlash_slash (t : string) :
  stripTrailingSlash (t ++ "/") = t.
Proof.
  induction t as [|c t IH]; [reflexivity|].
  cbn [append stripTrailingSlash]. rewrite IH.
  destruct t; cbn [append]; rewrite ?andb_false_r; reflexivity.
Qed.

Lemma stripTrailingSlash_none (t : string) :
  (forall t', t <> t' ++ "/") -> stripTrailingSlash t = t.
Proof.
  induction t as [|c t IH]; intros H; [reflexivity|].
  cbn [stripTrailingSlash].
  destruct (Ascii.eqb_spec c "/") as [->|Hc]; cbn [andb].
  - destruct (String.eqb_spec t "") as [->|Ht].
    + exfalso. now apply (H "").
    + rewrite IH; [reflexivity|]. intros t' ->. now apply (H (String "/" t')).
  - rewrite IH; [reflexivity|]. intros t' ->. now apply (H (String c t')).
Qed.

Lemma trim_empty : trim "" = "".
Proof. reflexivity. Qed.

(** X17. The base URL is [/api] when the override is not set or blank;
    otherwise it is the override without surrounding white space and
    without one slash at its end, so an override with and without the
    final slash give the same base URL (and the override [/] gives the
    empty one). *)
Theorem getApiBaseUrl_normalizes (u t : string) :
  getApiBaseUrl None = "/api" /\
  (trim u = "" -> getApiBaseUrl (Some u) = "/api") /\
  (trim u = t ++ "/" -> getApiBaseUrl (Some u) = t) /\
  (trim u = t -> t <> "" -> (forall t', t <> t' ++ "/") ->
   getApiBaseUrl (Some u) = t).
Proof.
  assert (trim u <> "" -> getApiBaseUrl (Some u) = stripTrailingSlash (trim u))
    as Hset.
  { intros Hne. unfold getApiBaseUrl.
    destruct (String.eqb_spec u "") as [->|_]; [now elim Hne|].
    destruct (String.eqb_spec (trim u) ""); [contradiction|reflexivity]. }
  split; [reflexivity|]. split; [|split].
  - intros Hb. unfold getApiBaseUrl. rewrite Hb.
    now rewrite andb_false_r.
  - intros Ht. rewrite Hset, Ht; [apply stripTrailingSlash_slash|].
    rewrite Ht. now destruct t.
  - intros Ht Hne Hns. rewrite Hset, Ht; [|congruence].
    now apply stripTrailingSlash_none.
Qed.

Lemma getApiBaseUrl_normalizes_witness :
  getApiBaseUrl (Some " https://trivia.example/v1/ ") = "https://trivia.example/v1" /\
  getApiBaseUrl (Some "https://trivia.example/v1") = "https://trivia.example/v1" /\
  getApiBaseUrl (Some "   ") = "/api" /\
  getApiBaseUrl (Some "/") = "".
Proof.
  split; [|split; [|split]].
  - exact (proj1 (proj2 (proj2 (getApiBaseUrl_normalizes
             " https://trivia.example/v1/ " "https://trivia.example/v1")))
             eq_refl).
  - apply (proj2 (proj2 (proj2 (getApiBaseUrl_normalizes
             "https://trivia.example/v1" "https://trivia.example/v1"))));
      [reflexivity|discriminate|].
    intros t' H. pose proof H as H'.
    apply (f_equal stripTrailingSlash) in H.
    rewrite stripTrailingSlash_slash in H. vm_compute in H.
    subst t'. discriminate H'.
  - exact (proj1 (proj2 (getApiBaseUrl_normalizes "   " "")) eq_refl).
  - exact (proj1 (proj2 (proj2 (getApiBaseUrl_normalizes "/" ""))) eq_refl).
Defined.

End Requests.

Section RequestShape.

Import Http TriviaApi.

Variable JSON_stringify : Js.value -> string.

Variable envUrl : option string.

Lemma get_set_same (k v : string) (h : headers) :
  get k (set k v h) = Some v.
Proof.
  induction h as [|[k' v'] h IH]; cbn.
  - now rewrite String.eqb_refl.
  - destruct (String.eqb_spec k' k) as [->|Hk]; cbn.
    + now rewrite String.eqb_refl.
    + destruct (String.eqb_spec k' k); [contradiction|exact IH].
Qed.

Lemma get_set_other (k k' v : string) (h : headers) :
  k <> k' -> get k (set k' v h) = get k h.
Proof.
  intros Hk. induction h as [|[k0 v0] h IH]; cbn.
  - destruct (String.eqb_spec k' k); [congruence|reflexivity].
  - destruct (String.eqb_spec k0 k') as [->|H0]; cbn.
    + destruct (String.eqb_spec k' k); [congruence|reflexivity].
    + destruct (String.eqb_spec k0 k); [reflexivity|exact IH].
Qed.

Lemma get_absent (k : string) (h : headers) :
  ~ In k (map fst h) -> get k h = None.
Proof.
  induction h as [|[k' v'] h IH]; cbn; [reflexivity|]. intros H.
  destruct (String.eqb_spec k' k); [tauto|]. apply IH. tauto.
Qed.

Lemma get_spread (b a : headers) (k : string) :
  NoDup (map fst b) ->
  get k (spread a b) =
  match get k b with
  | Some v => Some v
  | None => get k a
  end.
Proof.
  unfold spread. revert a. induction b as [|[k' v'] b IH]; intros a Hnd;
    [reflexivity|].
  cbn in Hnd |- *. inversion Hnd as [|? ? Hin Hnd']; subst.
  rewrite (IH _ Hnd').
  destruct (String.eqb_spec k' k) as [->|Hk].
  - rewrite (get_absent _ _ Hin). apply get_set_same.
  - destruct (get k b); [reflexivity|]. apply get_set_other. congruence.
Qed.

(** X18. Every request of the API surface goes to the base URL followed
    by the operation's path. POST and PUT requests, and only they, carry
    a body, and with it exactly the JSON content type; GET and DELETE
    requests carry no body and no header. *)
Theorem api_requests_shape (op : operation) :
  let c := callOf op in
  let r := buildRequest JSON_stringify envUrl (path c) (opts c) in
  url r = getApiBaseUrl envUrl ++ path c /\
  (req_body r <> None <-> req_method r = "POST" \/ req_method r = "PUT") /\
  (req_body r = None <-> req_method r = "GET" \/ req_method r = "DELETE") /\
  (req_body r <> None ->
   req_headers r = [("Content-Type", "application/json")]) /\
  (req_body r = None -> req_headers r = []).
Proof.
  destruct op; cbn; (split; [reflexivity|]);
    repeat split; intros; try discriminate; try congruence; auto;
    try (destruct H; discriminate).
Qed.

(** X19. Headers the caller passes win over the default one, key by key.
    Without a caller's content type, the JSON content type is set
    exactly when the body is truthy, while a body is sent whenever one is
    given: a body that is [null], [0], [false] or the empty string goes
    out without a content type. *)
Theorem request_headers_precedence (p : string) (o : options) :
  NoDup (map fst (Js.nullish (extraHeaders o) [])) ->
  let r := buildRequest JSON_stringify envUrl p o in
  (forall k v,
     get k (Js.nullish (extraHeaders o) []) = Some v ->
     get k (req_headers r) = Some v) /\
  (get "Content-Type" (Js.nullish (extraHeaders o) []) = None ->
   (get "Content-Type" (req_headers r) = Some "application/json" <->
    exists b, body o = Some b /\ Js.truthy b = true) /\
   (get "Content-Type" (req_headers r) = None <->
    body o = None \/ exists b, body o = Some b /\ Js.truthy b = false)) /\
  (req_body r = None <-> body o = None).
Proof.
  intros Hnd r. unfold r, buildRequest; cbn [req_headers req_body].
  split; [|split].
  - intros k v Hk. now rewrite (get_spread _ _ _ Hnd), Hk.
  - intros Hct. rewrite (get_spread _ _ _ Hnd), Hct.
    destruct (body o) as [b|]; [destruct (Js.truthy b) eqn:Hb|]; cbn.
    + split; split; try discriminate; eauto.
      intros [H|(b' & [= <-] & H)]; congruence.
    + split; split; try discriminate; eauto.
      intros (b' & [= <-] & H). congruence.
    + split; split; try discriminate; eauto.
      intros (b' & H & _). discriminate H.
  - destruct (body o); cbn; split; congruence.
Qed.

End RequestShape.

(** A serializer for the example: only [null] is serialized there. *)
Definition stringifyExample (v : Js.value) : string :=
  match v with
  | Js.Null => "null"
  | _ => ""
  end.

Lemma request_headers_precedence_witness :
  let r :=
    Http.buildRequest stringifyExample None "/game/answer"
      (Http.Options (Some "POST") (Some Js.Null)
         (Some [("Accept", "application/json")])) in
  Http.url r = "/api/game/answer" /\
  Http.get "Accept" (Http.req_headers r) = Some "application/json" /\
  Http.get "Content-Type" (Http.req_headers r) = None /\
  Http.req_body r = Some "null".
Proof.
  intros r.
  assert (NoDup (map fst [("Accept", "application/json")])) as Hnd
    by (repeat constructor; simpl; tauto).
  destruct (request_headers_precedence stringifyExample None "/game/answer"
              (Http.Options (Some "POST") (Some Js.Null)
                 (Some [("Accept", "application/json")])) Hnd)
    as (Hk & Hct & _).
  split; [reflexivity|].
  split; [exact (Hk "Accept" "application/json" eq_refl)|].
  split; [|reflexivity].
  apply (proj2 (Hct eq_refl)). right. now exists Js.Null.
Defined.


(* ================================================================== *)
(** ** Ids in request paths *)
(* ================================================================== *)

Section PathSegments.

Import TriviaApi.

(** What [encodeURIComponent] can put out: an unreserved character or
    the percent sign (the hexadecimal digits are unreserved). *)
Definition urlSafe (c : ascii) : bool := unreserved c || Ascii.eqb c "%".

(** Characters that would end or split a path segment. *)
Definition delimiter (c : ascii) : bool :=
  Ascii.eqb c "/" || Ascii.eqb c "?" || Ascii.eqb c "#" ||
  Ascii.eqb c "&" || Ascii.eqb c "=" || Ascii.eqb c " ".

Fixpoint allChars (p : ascii -> bool) (s : string) : bool :=
  match s with
  | EmptyString => true
  | String c s' => p c && allChars p s'
  end.

Definition hexValue (c : ascii) : N :=
  let n := N_of_ascii c in
  if (n <? 58)%N then (n - 48)%N else (n - 55)%N.

(** Reads one encoded character back off the front of a text. *)
Definition decodeHead (s : string) : option (ascii * string) :=
  match s with
  | EmptyString => None
  | String c rest =>
      if Ascii.eqb c "%" then
        match rest with
        | String h1 (String h2 rest1) =>
            let b := (16 * hexValue h1 + hexValue h2)%N in
            if (b <? 128)%N then Some (ascii_of_N b, rest1)
            else
              match rest1 with
              | String _ (String h3 (String h4 rest2)) =>
                  let b' := (16 * hexValue h3 + hexValue h4)%N in
                  Some (ascii_of_N ((b - 192) * 64 + (b' - 128)), rest2)
              | _ => None
              end
        | _ => None
        end
      else Some (c, rest)
  end.

Lemma allChars_app (p : ascii -> bool) (s t : string) :
  allChars p (s ++ t) = allChars p s && allChars p t.
Proof.
  induction s as [|c s IH]; [reflexivity|].
  cbn. now rewrite IH, andb_assoc.
Qed.

Lemma encodeChar_safe (c : ascii) : allChars urlSafe (encodeChar c) = true.
Proof.
  destruct c as [[] [] [] [] [] [] [] []]; vm_compute; reflexivity.
Qed.

Lemma decodeHead_encodeChar (c : ascii) (rest : string) :
  decodeHead (encodeChar c ++ rest) = Some (c, rest).
Proof.
  destruct c as [[] [] [] [] [] [] [] []]; reflexivity.
Qed.

Lemma encodeChar_unreserved (c : ascii) :
  unreserved c = true -> encodeChar c = String c EmptyString.
Proof. unfold encodeChar. now intros ->. Qed.

Lemma urlSafe_not_delimiter (c : ascii) :
  urlSafe c = true -> delimiter c = false.
Proof.
  destruct c as [[] [] [] [] [] [] [] []]; vm_compute; congruence.
Qed.

Lemma encodeURIComponent_safe (s : string) :
  allChars urlSafe (encodeURIComponent s) = true.
Proof.
  induction s as [|c s IH]; [reflexivity|].
  cbn [encodeURIComponent]. now rewrite allChars_app, encodeChar_safe, IH.
Qed.

Lemma allChars_weaken (p q : ascii -> bool) (s : string) :
  (forall c, p c = true -> q c = true) ->
  allChars p s = true -> allChars q s = true.
Proof.
  intros Hpq. induction s as [|c s IH]; [reflexivity|]. cbn.
  rewrite !andb_true_iff. intros [Hc Hs]. auto.
Qed.

Lemma encodeURIComponent_injective (s t : string) :
  encodeURIComponent s = encodeURIComponent t -> s = t.
Proof.
  revert t; induction s as [|c s IH]; intros [|d t] H; cbn in H.
  - reflexivity.
  - apply (f_equal decodeHead) in H.
    rewrite decodeHead_encodeChar in H. discriminate H.
  - apply (f_equal decodeHead) in H.
    rewrite decodeHead_encodeChar in H. discriminate H.
  - apply (f_equal decodeHead) in H.
    rewrite !decodeHead_encodeChar in H. injection H as -> H.
    f_equal. now apply IH.
Qed.

(** X20. The id in the path of an update or delete request stays inside
    its path segment: the encoded id holds only unreserved characters and
    percent signs, so none of the characters slash, question mark, hash,
    ampersand, equals sign and space; an id made of unreserved
    characters is sent as it is. *)
Theorem encoded_id_stays_in_segment (id : string) :
  path (adminDeleteQuestion id) = "/admin/questions/" ++ encodeURIComponent id /\
  allChars urlSafe (encodeURIComponent id) = true /\
  allChars (fun c => negb (delimiter c)) (encodeURIComponent id) = true /\
  (allChars unreserved id = true -> encodeURIComponent id = id).
Proof.
  split; [reflexivity|]. split; [apply encodeURIComponent_safe|]. split.
  - apply (allChars_weaken urlSafe); [|apply encodeURIComponent_safe].
    intros c Hc. now rewrite (urlSafe_not_delimiter c Hc).
  - induction id as [|c id IH]; [reflexivity|]. cbn.
    rewrite andb_true_iff. intros [Hc Hid].
    now rewrite (encodeChar_unreserved c Hc), (IH Hid).
Qed.

(** X21. Different ids give different request paths: the encoding of ids
    loses nothing, for delete and for update alike. *)
Theorem distinct_ids_distinct_paths (id id' : string)
    (p p' : AdminCreateForm.Payload.t) :
  (path (adminDeleteQuestion id) = path (adminDeleteQuestion id') ->
   id = id') /\
  (path (adminUpdateQuestion id p) = path (adminUpdateQuestion id' p') ->
   id = id').
Proof.
  split; cbn [path adminDeleteQuestion adminUpdateQuestion]; intros H;
    apply encodeURIComponent_injective;
    cbn in H; now repeat injection H as H.
Qed.

End PathSegments.

(* ================================================================== *)
(** ** [App.js]: the admin panel *)
(* ================================================================== *)

Module Admin.

Import Js Client TriviaApi.

(** The admin state variables of [App]; [adminQuestions] holds whatever
    the list reply was normalized to. *)
Module State.
Record t : Type := Make {
  adminQuestions : value;
  adminLoading : bool;
  adminError : string
}.
End State.

Definition initialState : State.t := State.Make (Arr []) false "".

(** What a handler of the panel does, in order: setter calls and calls
    of the API surface. *)
Inductive effect : Type :=
| SetAdminQuestions (items : value)
| SetAdminLoading (b : bool)
| SetAdminError (msg : string)
| Fetch (c : call).

Definition apply (st : State.t) (e : effect) : State.t :=
  let '(State.Make qs ld er) := st in
  match e with
  | SetAdminQuestions x => State.Make x ld er
  | SetAdminLoading x => State.Make qs x er
  | SetAdminError x => State.Make qs ld x
  | Fetch _ => st
  end.

Definition replay (effects : list effect) (st : State.t) : State.t :=
  fold_left apply effects st.

(** The API calls among the effects. *)
Fixpoint fetches (effects : list effect) : list call :=
  match effects with
  | [] => []
  | Fetch c :: rest => c :: fetches rest
  | _ :: rest => fetches rest
  end.

Definition M (A : Type) : Type := (list effect * outcome A)%type.

Definition ret {A : Type} (a : A) : M A := ([], Returned a).

Definition throw {A : Type} (e : error) : M A := ([], Thrown e).

Definition emit (e : effect) : M unit := ([e], Returned tt).

(** [await] of the API call [c], answered with [r]. *)
Definition await {A : Type} (c : call) (r : outcome A) : M A := ([Fetch c], r).

Definition bind {A B : Type} (m : M A) (k : A -> M B) : M B :=
  match m with
  | (es, Returned a) => let '(es', r) := k a in ((es ++ es')%list, r)
  | (es, Thrown e) => (es, Thrown e)
  end.

Declare Scope admin_scope.
Notation "x <- m ;; k" := (bind m (fun x => k))
  (at level 61, m at next level, right associativity) : admin_scope.
Notation "m ;; k" := (bind m (fun _ => k))
  (at level 61, right associativity) : admin_scope.
Local Open Scope admin_scope.

Definition tryCatch {A : Type} (body : M A) (handler : error -> M A) : M A :=
  match body with
  | (es, Returned a) => (es, Returned a)
  | (es, Thrown e) => let '(es', r) := handler e in ((es ++ es')%list, r)
  end.

Definition tryFinally {A : Type} (body : M A) (fin : M unit) : M A :=
  let '(es, r) := body in
  match fin with
  | (es', Returned _) => ((es ++ es')%list, r)
  | (es', Thrown e) => ((es ++ es')%list, Thrown e)
  end.

Definition effects {A : Type} (m : M A) : list effect := fst m.

(** [e?.message || fallback] *)
Definition messageOr (e : error) (fallback : string) : string :=
  orStr (Some (message e)) fallback.

Section Panel.

(** The message of the [TypeError] the engine throws when a property of
    [null] is read. *)
Variable nullReadMessage : string.

(** [Number.prototype.toString], a built-in. *)
Variable Number_toString : Q -> string.

(** The message of the [TypeError] the engine throws when a value cannot
    be converted to a string. *)
Variable toPrimitiveMessage : string.

(** [Array.isArray(list) ? list : (list.items || list.questions || [])] *)
Definition itemsOf (list : value) : M value :=
  match list with
  | Arr _ => ret list
  | Null | Undefined => throw (Error nullReadMessage None Undefined)
  | _ =>
      let items := prop list "items" in
      if truthy items then ret items
      else
        let questions := prop list "questions" in
        if truthy questions then ret questions else ret (Arr [])
  end.

Definition refreshAdmin (listReply : outcome value) : M unit :=
  emit (SetAdminError "") ;;
  emit (SetAdminLoading true) ;;
  tryFinally
    (tryCatch
       (list <- await adminListQuestions listReply ;;
        items <- itemsOf list ;;
        emit (SetAdminQuestions items))
       (fun e => emit (SetAdminError
                         (messageOr e "Unable to load admin questions"))))
    (emit (SetAdminLoading false)).

(** The [onCreate] that [App] hands to the create form. *)
Definition onCreate (payload : AdminCreateForm.Payload.t)
    (createReply listReply : outcome value) : M unit :=
  emit (SetAdminError "") ;;
  emit (SetAdminLoading true) ;;
  tryFinally
    (tryCatch
       (await (adminCreateQuestion payload) createReply ;;
        refreshAdmin listReply)
       (fun e => emit (SetAdminError
                         (messageOr e "Unable to create question"))))
    (emit (SetAdminLoading false)).

(** [q.id || q.question_id || q.questionId] of a listed record. *)
Definition recordId (q : value) : value :=
  if truthy (prop q "id") then prop q "id"
  else if truthy (prop q "question_id") then prop q "question_id"
  else prop q "questionId".

(** [encodeURIComponent(id)] in [adminDeleteQuestion] converts the id to
    a string first, and throws when it cannot, before any request. *)
Definition idText (id : value) : M string :=
  match toString Number_toString id with
  | Some s => ret s
  | None => throw (Error toPrimitiveMessage None Undefined)
  end.

(** The [onClick] of a delete button. (For a record that is [null] the
    source throws on reading [q.id], before any setter or request; here
    its id is [undefined] and the handler returns, with no effect
    either.) *)
Definition onDelete (q : value) (deleteReply listReply : outcome value)
    : M unit :=
  let id := recordId q in
  if negb (truthy id) then ret tt
  else
    emit (SetAdminError "") ;;
    emit (SetAdminLoading true) ;;
    tryFinally
      (tryCatch
         (s <- idText id ;;
          await (adminDeleteQuestion s) deleteReply ;;
          refreshAdmin listReply)
         (fun e => emit (SetAdminError
                           (messageOr e "Unable to delete question"))))
      (emit (SetAdminLoading false)).

(** A click on create: the form's own handler, and [onCreate] when the
    form calls it. *)
Definition createClick (f : AdminCreateForm.Form.t)
    (createReply listReply : outcome value)
    : AdminCreateForm.Form.t * list effect :=
  (AdminCreateForm.afterClick f,
   match AdminCreateForm.request f with
   | Some payload => effects (onCreate payload createReply listReply)
   | None => []
   end).

(** Actions on the panel with the replies of the backend. Entering the
    admin view and the refresh button both run [refreshAdmin]. *)
Inductive event : Type :=
| Refresh (listReply : outcome value)
| Create (payload : AdminCreateForm.Payload.t)
    (createReply listReply : outcome value)
| Delete (q : value) (deleteReply listReply : outcome value).

Definition handler (ev : event) : M unit :=
  match ev with
  | Refresh listReply => refreshAdmin listReply
  | Create payload createReply listReply =>
      onCreate payload createReply listReply
  | Delete q deleteReply listReply => onDelete q deleteReply listReply
  end.

Definition step (st : State.t) (ev : event) : State.t :=
  replay (effects (handler ev)) st.

Definition session (evs : list event) (st : State.t) : State.t :=
  fold_left step evs st.

End Panel.

End Admin.

(* ================================================================== *)
(** ** Properties of the admin panel *)
(* ================================================================== *)

(** Case analysis on everything a handler of the panel branches on. *)
Ltac admin_cases :=
  repeat (cbn;
          match goal with
          | |- context [if ?b then _ else _] => destruct b eqn:?
          | |- context [match ?x with _ => _ end] => destruct x eqn:?
          end).

Section AdminPanel.

Import Admin.

Variable nullReadMessage : string.

Variable Number_toString : Q -> string.

Variable toPrimitiveMessage : string.

Lemma refreshAdmin_reenables (listReply : outcome Js.value) (st : State.t) :
  State.adminLoading
    (replay (effects (refreshAdmin nullReadMessage listReply)) st) = false.
Proof.
  destruct st as [qs ld er]. unfold refreshAdmin, itemsOf.
  destruct listReply as [list|e]; [destruct list|]; admin_cases; reflexivity.
Qed.

Lemma step_reenables (st : State.t) (ev : event) :
  State.adminLoading st = false ->
  State.adminLoading
    (step nullReadMessage Number_toString toPrimitiveMessage st ev) = false.
Proof.
  intros Hld. destruct st as [qs ld er]; cbn in Hld; subst.
  destruct ev as [lr|p cr lr|q dr lr]; unfold step, handler.
  - apply refreshAdmin_reenables.
  - unfold onCreate, refreshAdmin, itemsOf.
    destruct cr as [v|e]; [destruct lr as [list|e]; [destruct list|]|];
      admin_cases; reflexivity.
  - unfold onDelete, idText, refreshAdmin, itemsOf.
    destruct (negb (Js.truthy (recordId q))); [reflexivity|].
    destruct (Js.toString Number_toString (recordId q)); [|reflexivity].
    destruct dr as [v|e]; [destruct lr as [list|e]; [destruct list|]|];
      admin_cases; reflexivity.
Qed.

(** X22. The admin panel never stays disabled: after every refresh,
    create and delete, whatever the backend replied, the loading flag is
    false again. *)
Theorem admin_controls_reenabled (evs : list event) :
  State.adminLoading
    (session nullReadMessage Number_toString toPrimitiveMessage evs
       initialState) = false.
Proof.
  assert (forall st, State.adminLoading st = false ->
                     State.adminLoading
                       (session nullReadMessage Number_toString
                          toPrimitiveMessage evs st) = false)
    as H.
  { induction evs as [|ev evs IH]; intros st Hst; [exact Hst|].
    apply IH. now apply step_reenables. }
  now apply H.
Qed.

End AdminPanel.

Section AdminReplies.

Import Admin TriviaApi.

Variable nullReadMessage : string.

Variable Number_toString : Q -> string.

Variable toPrimitiveMessage : string.

(** X23. A list reply may be a bare array or an object with the list
    under [items] or [questions]: the three forms store the same list and
    clear the error. [items] is taken whenever it is truthy, an empty
    array included, whatever [questions] holds; an object with neither
    stores the empty list; a [null] reply stores nothing and shows the
    engine's message, or the default text when that is empty. *)
Theorem list_reply_shapes (st : State.t) (items : list Js.value)
    (props : list (string * Js.value)) :
  let refreshed r :=
    step nullReadMessage Number_toString toPrimitiveMessage st
      (Refresh (Returned r)) in
  refreshed (Js.Arr items) = State.Make (Js.Arr items) false "" /\
  (Js.truthy (Js.lookup "items" props) = true ->
   refreshed (Js.Obj props) = State.Make (Js.lookup "items" props) false "") /\
  (Js.truthy (Js.lookup "items" props) = false ->
   Js.truthy (Js.lookup "questions" props) = true ->
   refreshed (Js.Obj props) =
     State.Make (Js.lookup "questions" props) false "") /\
  (Js.truthy (Js.lookup "items" props) = false ->
   Js.truthy (Js.lookup "questions" props) = false ->
   refreshed (Js.Obj props) = State.Make (Js.Arr []) false "") /\
  refreshed Js.Null =
    State.Make (State.adminQuestions st) false
      (Js.orStr (Some nullReadMessage) "Unable to load admin questions").
Proof.
  destruct st as [qs ld er]. cbn zeta.
  unfold step, handler, refreshAdmin, itemsOf.
  split; [reflexivity|]. split; [|split; [|split]].
  - intros Hi. cbn. now rewrite Hi.
  - intros Hi Hq. cbn. now rewrite Hi, Hq.
  - intros Hi Hq. cbn. now rewrite Hi, Hq.
  - reflexivity.
Qed.

(** X24. A create or delete that the backend accepts is followed by one
    list request, and the panel ends in the state a refresh alone would
    give: the list is reloaded as a whole, not patched. *)
Theorem accepted_write_reloads_list (st : State.t)
    (payload : AdminCreateForm.Payload.t) (q written : Js.value)
    (s : string) (listReply : outcome Js.value) :
  (let m := onCreate nullReadMessage payload (Returned written) listReply in
   fetches (effects m) = [adminCreateQuestion payload; adminListQuestions] /\
   replay (effects m) st =
     replay (effects (refreshAdmin nullReadMessage listReply)) st) /\
  (Js.truthy (recordId q) = true ->
   Js.toString Number_toString (recordId q) = Some s ->
   let m :=
     onDelete nullReadMessage Number_toString toPrimitiveMessage q
       (Returned written) listReply in
   fetches (effects m) = [adminDeleteQuestion s; adminListQuestions] /\
   replay (effects m) st =
     replay (effects (refreshAdmin nullReadMessage listReply)) st).
Proof.
  destruct st as [qs ld er]. split; [|intros Hid Hs; cbn zeta].
  - unfold onCreate, refreshAdmin, itemsOf.
    destruct listReply as [list|e]; [destruct list|];
      admin_cases; split; reflexivity.
  - unfold onDelete, idText. rewrite Hid, Hs. cbn [negb].
    unfold refreshAdmin, itemsOf.
    destruct listReply as [list|e]; [destruct list|];
      admin_cases; split; reflexivity.
Qed.

(** X25. A create or delete that the backend rejects sends no list
    request: the list stays as it was, the error's message (or the
    handler's default text) is shown, and the panel is enabled again. *)
Theorem rejected_write_keeps_list (st : State.t)
    (payload : AdminCreateForm.Payload.t) (q : Js.value) (s : string)
    (e : error) (listReply : outcome Js.value) :
  (let m := onCreate nullReadMessage payload (Thrown e) listReply in
   fetches (effects m) = [adminCreateQuestion payload] /\
   replay (effects m) st =
     State.Make (State.adminQuestions st) false
       (messageOr e "Unable to create question")) /\
  (Js.truthy (recordId q) = true ->
   Js.toString Number_toString (recordId q) = Some s ->
   let m :=
     onDelete nullReadMessage Number_toString toPrimitiveMessage q
       (Thrown e) listReply in
   fetches (effects m) = [adminDeleteQuestion s] /\
   replay (effects m) st =
     State.Make (State.adminQuestions st) false
       (messageOr e "Unable to delete question")).
Proof.
  destruct st as [qs ld er]. split; [split; reflexivity|].
  intros Hid Hs. cbn zeta. unfold onDelete, idText. rewrite Hid, Hs.
  split; reflexivity.
Qed.

(** X26. Delete on a record without a truthy [id], [question_id] or
    [questionId] does nothing at all: no request, no state change. With
    one, the first truthy of the three, in that order, is the id that is
    deleted, as the string it converts to; an id that cannot be converted
    (an object with a [toString] property of its own) sends no request
    and shows the engine's message, or the default text when that is
    empty. *)
Theorem delete_needs_an_id (st : State.t) (q : Js.value)
    (deleteReply listReply : outcome Js.value) :
  let clicked :=
    onDelete nullReadMessage Number_toString toPrimitiveMessage q
      deleteReply listReply in
  let firstTruthy id :=
    Js.prop q "id" = id \/
    (Js.truthy (Js.prop q "id") = false /\ Js.prop q "question_id" = id) \/
    (Js.truthy (Js.prop q "id") = false /\
     Js.truthy (Js.prop q "question_id") = false /\
     Js.prop q "questionId" = id) in
  (Js.truthy (Js.prop q "id") = false ->
   Js.truthy (Js.prop q "question_id") = false ->
   Js.truthy (Js.prop q "questionId") = false ->
   effects clicked = [] /\
   step nullReadMessage Number_toString toPrimitiveMessage st
     (Delete q deleteReply listReply) = st) /\
  (forall id s,
     Js.truthy id = true -> firstTruthy id ->
     Js.toString Number_toString id = Some s ->
     hd_error (fetches (effects clicked)) = Some (adminDeleteQuestion s)) /\
  (forall id,
     Js.truthy id = true -> firstTruthy id ->
     Js.toString Number_toString id = None ->
     fetches (effects clicked) = [] /\
     step nullReadMessage Number_toString toPrimitiveMessage st
       (Delete q deleteReply listReply) =
       State.Make (State.adminQuestions st) false
         (Js.orStr (Some toPrimitiveMessage) "Unable to delete question")).
Proof.
  intros clicked firstTruthy.
  assert (forall id, Js.truthy id = true -> firstTruthy id -> recordId q = id)
    as Hrec.
  { intros id Hid Hq. unfold recordId.
    destruct Hq as [H|[[H1 H]|(H1 & H2 & H)]]; subst id.
    - now rewrite Hid.
    - now rewrite H1, Hid.
    - now rewrite H1, H2. }
  split; [|split].
  - intros H1 H2 H3. unfold clicked, step, handler, onDelete, recordId.
    rewrite H1, H2, H3. split; reflexivity.
  - intros id s Hid Hq Hs.
    unfold clicked, onDelete, idText.
    rewrite (Hrec id Hid Hq), Hid, Hs. cbn [negb].
    destruct deleteReply; [|reflexivity].
    unfold refreshAdmin, itemsOf.
    destruct listReply as [list|e]; [destruct list|];
      admin_cases; reflexivity.
  - intros id Hid Hq Hs.
    unfold clicked, step, handler, onDelete, idText.
    rewrite (Hrec id Hid Hq), Hid, Hs. cbn [negb].
    destruct st as [qs ld er]. split; reflexivity.
Qed.

(** X27. A click on create with an invalid form sends nothing. With a
    valid form the first request is the POST of the payload, and the
    form's prompt and explanation are emptied afterwards whether the
    backend accepted the question or not; the choices and the index stay. *)
Theorem create_click_end_to_end (f : AdminCreateForm.Form.t)
    (createReply listReply : outcome Js.value) :
  let f' := fst (createClick nullReadMessage f createReply listReply) in
  let es := snd (createClick nullReadMessage f createReply listReply) in
  (AdminCreateForm.request f = None -> es = []) /\
  (forall payload,
     AdminCreateForm.request f = Some payload ->
     hd_error (fetches es) = Some (adminCreateQuestion payload) /\
     AdminCreateForm.Form.prompt f' = "" /\
     AdminCreateForm.Form.explanation f' = "" /\
     AdminCreateForm.Form.localError f' = "") /\
  AdminCreateForm.Form.choicesText f' = AdminCreateForm.Form.choicesText f /\
  AdminCreateForm.Form.correctIndex f' = AdminCreateForm.Form.correctIndex f.
Proof.
  cbn zeta. unfold createClick; cbn [fst snd].
  split; [now intros ->|]. split.
  - intros payload Hp. rewrite Hp. split.
    + unfold onCreate. destruct createReply; [|reflexivity].
      unfold refreshAdmin, itemsOf.
      destruct listReply as [list|e]; [destruct list|];
        admin_cases; reflexivity.
    + revert Hp. unfold AdminCreateForm.request, AdminCreateForm.afterClick,
        AdminCreateForm.onClick.
      destruct f as [p ct ci ex le]; cbn.
      repeat match goal with
             | |- context [if ?b then _ else _] => destruct b
             end; cbn; intros H; try discriminate H; repeat split.
  - unfold AdminCreateForm.afterClick, AdminCreateForm.onClick.
    destruct f as [p ct ci ex le]; cbn.
    repeat match goal with
           | |- context [if ?b then _ else _] => destruct b
           end; cbn; split; reflexivity.
Qed.

End AdminReplies.

Lemma accepted_write_reloads_list_witness :
  let q := Js.Obj [("id", Js.Str ""); ("question_id", Js.Num 7)] in
  Admin.fetches
    (Admin.effects
       (Admin.onDelete "" printExample cannotConvert q (Returned Js.Null)
          (Returned (Js.Arr [])))) =
  [TriviaApi.adminDeleteQuestion "7"; TriviaApi.adminListQuestions].
Proof.
  intros q.
  exact (proj1 (proj2 (accepted_write_reloads_list "" printExample
                         cannotConvert Admin.initialState
                         (AdminCreateForm.Payload.Make "" [] 0 None)
                         q Js.Null "7" (Returned (Js.Arr [])))
                  eq_refl eq_refl)).
Defined.

Lemma rejected_write_keeps_list_witness :
  let q := Js.Obj [("questionId", Js.Str "a/b")] in
  let m :=
    Admin.onDelete "" printExample cannotConvert q (Thrown e500)
      (Returned (Js.Arr [])) in
  Admin.fetches (Admin.effects m) = [TriviaApi.adminDeleteQuestion "a/b"] /\
  TriviaApi.path (TriviaApi.adminDeleteQuestion "a/b") = "/admin/questions/a%2Fb" /\
  Admin.State.adminError (Admin.replay (Admin.effects m) Admin.initialState) = "Internal Server Error".
Proof.
  intros q m.
  destruct (proj2 (rejected_write_keeps_list "" printExample cannotConvert
                     Admin.initialState
                     (AdminCreateForm.Payload.Make "" [] 0 None)
                     q "a/b" e500 (Returned (Js.Arr []))) eq_refl eq_refl)
    as [Hf Hs].
  split; [exact Hf|]. split; [reflexivity|].
  unfold m. now rewrite Hs.
Defined.

Lemma create_click_end_to_end_witness :
  AdminCreateForm.Form.prompt
    (fst (Admin.createClick "" filledForm (Thrown e500) (Returned (Js.Arr [])))) = "" /\
  Admin.fetches (snd (Admin.createClick "" filledForm (Thrown e500) (Returned (Js.Arr [])))) =
    [TriviaApi.adminCreateQuestion
       (AdminCreateForm.Payload.Make "Who made Pong?" ["Atari"; "Namco"] 1 None)] /\
  snd (Admin.createClick "" blankPromptForm (Returned Js.Null) (Returned (Js.Arr []))) = [].
Proof.
  destruct (create_click_end_to_end "" filledForm (Thrown e500)
              (Returned (Js.Arr []))) as (_ & H & _).
  destruct (H _ eq_refl) as (_ & Hp & _).
  destruct (create_click_end_to_end "" blankPromptForm (Returned Js.Null)
              (Returned (Js.Arr []))) as (Hnone & _).
  split; [exact Hp|]. split; [reflexivity|]. exact (Hnone eq_refl).
Defined.

(* ================================================================== *)
(** ** What the create form sends *)
(* ================================================================== *)

Section CreatePayload.

Import AdminCreateForm.

Lemma trimEnd_idempotent (s : string) : trimEnd (trimEnd s) = trimEnd s.
Proof.
  induction s as [|c s IH]; [reflexivity|]. cbn [trimEnd].
  destruct (trimEnd s) as [|d t] eqn:Ht.
  - destruct (isSpace c) eqn:Hc; [reflexivity|].
    cbn [trimEnd]. now rewrite Hc.
  - cbn [trimEnd]. cbn [trimEnd] in IH. now rewrite IH.
Qed.

Lemma trimEnd_keeps_head (c : ascii) (s : string) :
  isSpace c = false -> exists t, trimEnd (String c s) = String c t.
Proof.
  intros Hc. cbn [trimEnd]. destruct (trimEnd s) as [|d t].
  - rewrite Hc. now exists EmptyString.
  - now exists (String d t).
Qed.

Lemma trimStart_head (s : string) :
  trimStart s = "" \/
  exists c t, trimStart s = String c t /\ isSpace c = false.
Proof.
  induction s as [|c s IH]; [now left|]. cbn [trimStart].
  destruct (isSpace c) eqn:Hc; [exact IH|]. right. now exists c, s.
Qed.

Lemma trim_idempotent (s : string) : trim (trim s) = trim s.
Proof.
  unfold trim. destruct (trimStart_head s) as [->|(c & t & -> & Hc)];
    [reflexivity|].
  destruct (trimEnd_keeps_head c t Hc) as [t' Ht].
  rewrite Ht. cbn [trimStart]. rewrite Hc, <- Ht.
  apply trimEnd_idempotent.
Qed.

Lemma parseChoices_trimmed (f : Form.t) :
  Forall (fun c => c <> "" /\ trim c = c) (parseChoices f).
Proof.
  unfold parseChoices. apply Forall_forall. intros c Hc.
  apply filter_In in Hc as [Hin Hne]. apply in_map_iff in Hin as (l & <- & _).
  split; [|apply trim_idempotent].
  apply negb_true_iff in Hne. now apply String.eqb_neq.
Qed.

(** X28. Every payload the create form hands over has passed the three
    checks: the prompt is non-empty and has no white space around it;
    there are at least two choices, as many as the text area has
    non-empty lines, each non-empty and without white space around it;
    the correct index lies in [0, number of choices), and names a choice
    when it is an integer (the checks let a fraction through); and the
    explanation is either left out or non-empty, without white space
    around it. *)
Theorem create_payload_well_formed (f : Form.t) (p : Payload.t) :
  request f = Some p ->
  Payload.prompt p <> "" /\
  trim (Payload.prompt p) = Payload.prompt p /\
  (2 <= length (Payload.choices p))%nat /\
  length (Payload.choices p) = nonEmptyLines (Form.choicesText f) /\
  Forall (fun c => c <> "" /\ trim c = c) (Payload.choices p) /\
  (0 <= Payload.correctIndex p /\
   Payload.correctIndex p <
     inject_Z (Z.of_nat (length (Payload.choices p))))%Q /\
  (forall i : Z,
     (Payload.correctIndex p == inject_Z i)%Q ->
     exists c, nth_error (Payload.choices p) (Z.to_nat i) = Some c) /\
  Payload.explanation p <> Some "" /\
  (forall e, Payload.explanation p = Some e -> trim e = e).
Proof.
  unfold request, onClick.
  destruct (String.eqb_spec (trim (Form.prompt f)) "") as [|Hb];
    [discriminate|].
  destruct (Z.ltb_spec (Z.of_nat (length (parseChoices f))) 2) as [|Hf];
    [discriminate|].
  destruct (lt_spec (Form.correctIndex f) 0) as [|Hl]; [discriminate|].
  destruct (ge_spec (Form.correctIndex f)
              (inject_Z (Z.of_nat (length (parseChoices f))))) as [|Hg];
    [discriminate|].
  apply Qnot_lt_le in Hl. apply Qnot_le_lt in Hg.
  cbn. intros [= <-]; cbn.
  split; [exact Hb|]. split; [apply trim_idempotent|].
  split; [lia|]. split; [apply parseChoices_count|].
  split; [apply parseChoices_trimmed|]. split; [now split|].
  split; [|split].
  - intros i Hi. rewrite Hi in Hl, Hg.
    assert (0 <= i) as Hl' by (rewrite Zle_Qle; exact Hl).
    rewrite <- Zlt_Qlt in Hg.
    destruct (nth_error (parseChoices f) (Z.to_nat i)) as [c|] eqn:Hn;
      [now exists c|].
    apply nth_error_None in Hn. lia.
  - unfold orUndefined.
    destruct (String.eqb_spec (trim (Form.explanation f)) "");
      [discriminate|congruence].
  - unfold orUndefined. intros e.
    destruct (String.eqb_spec (trim (Form.explanation f)) "");
      [discriminate|]. intros [= <-]. apply trim_idempotent.
Qed.

End CreatePayload.

(** A form whose index is one and a half. *)
Definition halfIndexForm : AdminCreateForm.Form.t :=
  AdminCreateForm.Form.Make "Who made Pong?" ("Atari" ++ LF ++ "Namco")
    1.5 "" "".

Lemma create_payload_well_formed_witness :
  AdminCreateForm.request halfIndexForm =
    Some (AdminCreateForm.Payload.Make "Who made Pong?" ["Atari"; "Namco"]
            1.5 None) /\
  (0 <= 1.5 /\ 1.5 < 2)%Q /\
  exists c, nth_error ["Atari"; "Namco"] 1 = Some c.
Proof.
  split; [reflexivity|].
  destruct (create_payload_well_formed halfIndexForm
              (AdminCreateForm.Payload.Make "Who made Pong?"
                 ["Atari"; "Namco"] 1.5 None) eq_refl)
    as (_ & _ & _ & _ & _ & H & _).
  split; [exact H|].
  destruct (create_payload_well_formed filledForm
              (AdminCreateForm.Payload.Make "Who made Pong?"
                 ["Atari"; "Namco"] 1 None) eq_refl)
    as (_ & _ & _ & _ & _ & _ & H1 & _).
  exact (H1 1 (Qeq_refl _)).
Defined.
